(** * Vocabulary spreadsheet to slide deck: the text wrapper, the loader,
      the slide layout and the deck builder of 主程序.py

    The program is embedded first: strings, numbers, the deck, cell values
    and worksheets, the effects of a run, then [process_text], the loaders,
    [generate_slide] and the two entry points [generate_ppt] and
    [generate_ppt_from_sheet]. The properties follow, component by
    component.

    Python [str] values are sequences of Unicode code points, and [len] and
    slicing count code points; a string is therefore a [list N] of code
    points here, written in the file as the UTF-8 literal of the source and
    decoded by [py]. *)

From Stdlib Require Import ZArith List Ascii String SpecFloat.
From stdpp Require Import base list gmap pretty.

Local Open Scope Z_scope.

(** ** Strings *)

Module PyStr.

Definition pystr := list N.

(** UTF-8 decoding of a literal of the source file: [need] continuation
    bytes are still expected for the code point whose high bits are [acc]. *)
Fixpoint utf8_go (need : nat) (acc : N) (bs : list N) : pystr :=
  match bs with
  | [] => []
  | b :: bs' =>
      match need with
      | O =>
          if (b <? 128)%N then b :: utf8_go 0 0%N bs'
          else if (b <? 224)%N then utf8_go 1 (b - 192)%N bs'
          else if (b <? 240)%N then utf8_go 2 (b - 224)%N bs'
          else utf8_go 3 (b - 240)%N bs'
      | S O => (acc * 64 + (b - 128))%N :: utf8_go 0 0%N bs'
      | S n => utf8_go n (acc * 64 + (b - 128))%N bs'
      end
  end.

Definition py (s : string) : pystr :=
  utf8_go 0 0%N (map N_of_ascii (list_ascii_of_string s)).

(** [len(s)] *)
Definition len {A} (s : list A) : Z := Z.of_nat (length s).

(** [sep.join(lines)] *)
Fixpoint join (sep : pystr) (lines : list pystr) : pystr :=
  match lines with
  | [] => []
  | [l] => l
  | l :: ls => l ++ sep ++ join sep ls
  end.

(** The bound of a slice on a sequence of length [n]: a negative bound counts
    from the end, and every bound is clamped to [0..n]. *)
Definition slice_bound (n i : Z) : nat :=
  Z.to_nat (if i <? 0 then Z.max (i + n) 0 else Z.min i n).

(** [s[lo:hi]] *)
Definition slice {A} (s : list A) (lo hi : Z) : list A :=
  let a := slice_bound (len s) lo in
  let b := slice_bound (len s) hi in
  take (b - a)%nat (drop a s).

(** [range(start, stop, step)] as a list; [None] is the [ValueError] of a
    zero step. *)
Definition range_len (start stop step : Z) : nat :=
  if 0 <? step then Z.to_nat ((stop - start + step - 1) / step)
  else Z.to_nat ((start - stop - step - 1) / (- step)).

Definition range (start stop step : Z) : option (list Z) :=
  if step =? 0 then None
  else Some (map (fun k => start + Z.of_nat k * step)
                 (seq 0 (range_len start stop step))).

End PyStr.
Export PyStr.

(** ** Text that XML can hold

    The deck is XML underneath. python-pptx writes a control character of
    a text as an escape and a line break as a break element, and hands the
    rest to lxml, which refuses, with a [ValueError], a text holding a
    surrogate code point, U+FFFE or U+FFFF. A workbook is XML as well, so
    no text that openpyxl reads from one holds such a code point. *)

Definition xml_char (c : N) : bool :=
  negb (((55296 <=? c) && (c <=? 57343)) || (c =? 65534) || (c =? 65535))%N.

Definition xml_text (s : pystr) : bool := forallb xml_char s.

(** ** Exceptions *)

Inductive exn :=
| SystemExit (code : Z)       (* sys.exit(code): not an [Exception] *)
| KeyError (key : pystr)      (* d[key] on a missing key *)
| ValueError (msg : pystr)
| Exception (msg : pystr).    (* raise Exception(msg), or a library error
                                 whose str() is msg *)

(** What [except Exception] catches. *)
Definition is_Exception (e : exn) : bool :=
  match e with SystemExit _ => false | _ => true end.

Inductive outcome (A : Type) :=
| Ret (a : A)
| Exc (e : exn).
Arguments Ret {A} a.
Arguments Exc {A} e.

(** ** Constants *)

Definition TEXT_WRAP_THRESHOLD : Z := 40.

(** ['\n                  '] : a newline and 18 spaces. *)
Definition WRAP_SEPARATOR : pystr :=
  py (String (ascii_of_nat 10) "                  ").

(** ** process_text *)

Definition process_text (text : pystr) (threshold : Z) : outcome pystr :=
  if len text <=? threshold then Ret text
  else
    match range 0 (len text) threshold with
    | None => Exc (ValueError (py "range() arg 3 must not be zero"))
    | Some starts =>
        let lines := map (fun i => slice text i (i + threshold)) starts in
        Ret (join WRAP_SEPARATOR lines)
    end.

(** ** Numbers: [int] and binary64 [float]

    [Inches(x)] and [Pt(x)] of python-pptx are [int(x * 914400)] and
    [int(x * 12700)]: exact on an [int], a rounded binary64 product
    truncated toward zero on a [float]. The float literals of the source
    ([1.4], [4.4], [1.5]) are the correctly rounded quotients of their
    decimal numerator and denominator. *)

Module PyNum.

Definition prec : Z := 53.
Definition emax : Z := 1024.

Inductive pynum :=
| PyInt (z : Z)
| PyFloat (f : spec_float).

Definition float_of_int (z : Z) : spec_float :=
  binary_normalize prec emax z 0 false.

(** The literal [num/den] written in decimal, e.g. [1.4] is [decimal 14 10]. *)
Definition decimal (num den : Z) : pynum :=
  PyFloat (SFdiv prec emax (float_of_int num) (float_of_int den)).

(** [int(f)] on a finite float ([int] raises on infinities and NaN, which
    no product below produces; they are sent to 0 here). *)
Definition int_of_float (f : spec_float) : Z :=
  match f with
  | S754_finite s m e =>
      let a := if 0 <=? e then Z.pos m * 2 ^ e else Z.pos m / 2 ^ (- e) in
      if s then - a else a
  | _ => 0
  end.

(** [int(x * k)] for an [int] constant [k]. *)
Definition int_mul (x : pynum) (k : Z) : Z :=
  match x with
  | PyInt z => z * k
  | PyFloat f => int_of_float (SFmul prec emax f (float_of_int k))
  end.

Definition Inches (inches : pynum) : Z := int_mul inches 914400.
Definition Pt (points : pynum) : Z := int_mul points 12700.

End PyNum.
Export PyNum.

Definition SLIDE_WIDTH : Z := Inches (PyInt 16).
Definition SLIDE_HEIGHT : Z := Inches (PyInt 9).
Definition WORD_FONT_SIZE : Z := Pt (PyInt 72).
Definition PHONETIC_FONT_SIZE : Z := Pt (PyInt 32).
Definition CONTENT_FONT_SIZE : Z := Pt (PyInt 32).

(** The keys of [REQUIRED_COLUMNS], in the order of the dict literal. *)
Definition REQUIRED_COLUMNS : list pystr :=
  [py "英文单词"; py "英文音标"; py "词根词缀"; py "例句"; py "例句释义"; py "单词释义"].

(** ** The deck: presentation, slides, text boxes, paragraphs

    Lengths are EMU (914400 to the inch, 12700 to the point). A field that
    the program never assigns stays [None]: the library's default. *)

Inductive PP_PARAGRAPH_ALIGNMENT := CENTER | LEFT.
Inductive MSO_AUTO_SIZE := TEXT_TO_FIT_SHAPE | SHAPE_TO_FIT_TEXT.

Record Paragraph := {
  alignment : option PP_PARAGRAPH_ALIGNMENT;
  font_size : option Z;
  text : pystr
}.

Record TextFrame := {
  auto_size : option MSO_AUTO_SIZE;
  word_wrap : option bool;
  paragraphs : list Paragraph
}.

Record TextBox := {
  left : Z;
  top : Z;
  width : Z;
  height : Z;
  text_frame : TextFrame
}.

(** A slide is its [shapes], in the order they were added. *)
Definition Slide := list TextBox.

Record Presentation := {
  slide_width : option Z;
  slide_height : option Z;
  slides : list Slide
}.

(** A text frame as [add_textbox] leaves it: python-pptx gives a new text
    frame one empty paragraph, and [add_paragraph] appends after it. *)
Definition empty_paragraph : Paragraph :=
  {| alignment := None; font_size := None; text := [] |}.

Definition new_text_frame : TextFrame :=
  {| auto_size := None; word_wrap := None; paragraphs := [empty_paragraph] |}.

Definition add_paragraph (tf : TextFrame) (p : Paragraph) : TextFrame :=
  {| auto_size := auto_size tf; word_wrap := word_wrap tf;
     paragraphs := paragraphs tf ++ [p] |}.

Definition set_auto_size (tf : TextFrame) (a : MSO_AUTO_SIZE) : TextFrame :=
  {| auto_size := Some a; word_wrap := word_wrap tf;
     paragraphs := paragraphs tf |}.

Definition set_word_wrap (tf : TextFrame) (w : bool) : TextFrame :=
  {| auto_size := auto_size tf; word_wrap := Some w;
     paragraphs := paragraphs tf |}.

(** [slide.shapes.add_textbox(left, top, width, height)] with the text frame
    the caller then fills in. *)
Definition add_textbox (slide : Slide) (l t w h : Z) (tf : TextFrame) : Slide :=
  slide ++ [{| left := l; top := t; width := w; height := h; text_frame := tf |}].

(** ** Cell values and worksheets

    The values openpyxl hands over that the model covers: an empty cell
    ([None]), a string, an integer, a boolean. (Floats and dates, whose
    [str] is a matter of floating-point and calendar formatting, are left
    out of the data model.) *)

Inductive cell :=
| CNone
| CBool (b : bool)
| CInt (n : Z)
| CStr (s : pystr).

Global Instance cell_eq_dec : EqDecision cell.
Proof. solve_decision. Defined.

Global Instance cell_countable : Countable cell.
Proof.
  refine (inj_countable'
    (fun c => match c with
              | CNone => inl (inl ())
              | CBool b => inl (inr b)
              | CInt n => inr (inl n)
              | CStr s => inr (inr s)
              end)
    (fun x => match x with
              | inl (inl _) => CNone
              | inl (inr b) => CBool b
              | inr (inl n) => CInt n
              | inr (inr s) => CStr s
              end) _).
  intros []; reflexivity.
Defined.

(** [str(value)] *)
Definition str (value : cell) : pystr :=
  match value with
  | CNone => py "None"
  | CBool true => py "True"
  | CBool false => py "False"
  | CInt n => py (pretty n)
  | CStr s => s
  end.

(** The key under which a dict files a value: [True] and [False] hash and
    compare as [1] and [0]. *)
Definition dict_key (c : cell) : cell :=
  match c with
  | CBool b => CInt (if b then 1 else 0)
  | _ => c
  end.

(** [a == b] on cell values. *)
Definition py_eq (a b : cell) : bool := bool_decide (dict_key a = dict_key b).

(** [x in xs] *)
Definition py_in (x : cell) (xs : list cell) : bool := existsb (py_eq x) xs.

(** A worksheet as the program reads it: [ws[1]] gives the cells of the
    first row, [ws.iter_rows(min_row=2, values_only=True)] the value tuples
    of the rows after it. *)
Record Worksheet := {
  first_row : list cell;
  rows_from_2 : list (list cell)
}.

(** openpyxl spans both [ws[1]] and [iter_rows] over columns 1 to
    [max_column], so every row it yields is as wide as the first. *)
Definition rectangular (ws : Worksheet) : Prop :=
  Forall (fun row => length row = length (first_row ws)) (rows_from_2 ws).

Record Workbook := {
  active : Worksheet;
  sheets : list (pystr * Worksheet)      (* wb[sheet_name] *)
}.

(** A record: the [row_dict] of the loader. *)
Abbreviation Row := (gmap cell pystr).

(** [enumerate(xs)] *)
Definition enumerate {A} (xs : list A) : list (nat * A) :=
  zip (seq 0 (length xs)) xs.

(** The body of the loader's row loop:
    [[
    row_dict = {}
    for i, value in enumerate(row):
        if i < len(headers):
            row_dict[headers[i]] = str(value) if value is not None else ''
    ]] *)
Definition load_cell (value : cell) : pystr :=
  match value with
  | CNone => []
  | _ => str value
  end.

Definition load_row (headers : list cell) (row : list cell) : Row :=
  fold_left
    (fun (row_dict : Row) '(i, value) =>
       if (i <? length headers)%nat
       then <[dict_key (nth i headers CNone) := load_cell value]> row_dict
       else row_dict)
    (enumerate row) ∅.

(** The text of every cell of a sheet, of every sheet of a workbook, is
    text that XML can hold. *)
Definition xml_cells (cells : list cell) : bool :=
  forallb (fun value => xml_text (load_cell value)) cells.

Definition xml_sheet (ws : Worksheet) : bool :=
  xml_cells (first_row ws) && forallb xml_cells (rows_from_2 ws).

Definition xml_workbook (wb : Workbook) : bool :=
  xml_sheet (active wb) && forallb (fun s => xml_sheet (snd s)) (sheets wb).

(** [[col for col in REQUIRED_COLUMNS if col not in headers]] *)
Definition missing_columns (headers : list cell) : list pystr :=
  filter (fun col => negb (py_in (CStr col) headers) = true) REQUIRED_COLUMNS.

(** ** Effects

    What a run does to the outside is kept as a trace of events, oldest
    first: workbooks opened, lines printed, the presentation created, slides
    added, and the attempt to save. What the outside answers is the [Files]
    record: the workbook (or error) behind every input path, and the error,
    if any, that saving to a path meets; the workbooks it hands over were
    parsed from XML, so their texts are texts that XML can hold. *)

Inductive event :=
| EvLoadWorkbook (path : pystr)
| EvPrint (line : pystr)
| EvNewPresentation
| EvAddSlide
| EvSave (path : pystr) (ppt : Presentation) (written : bool).

Record Files := {
  load_workbook : pystr -> outcome Workbook;
  save_error : pystr -> option exn;
  (* a workbook that opens was parsed from XML *)
  load_workbook_xml :
    forall path wb, load_workbook path = Ret wb -> xml_workbook wb = true
}.

(** The two ways the file systems below answer: always the same workbook,
    or never one. *)
Lemma serves_xml (wb : Workbook) :
  xml_workbook wb = true ->
  forall (path : pystr) wb', Ret wb = Ret wb' -> xml_workbook wb' = true.
Proof. intros Hxml path wb' Heq. injection Heq as <-. exact Hxml. Qed.

Lemma serves_nothing (e : exn) :
  forall (path : pystr) wb, Exc e = Ret wb -> xml_workbook wb = true.
Proof. intros path wb Heq. discriminate Heq. Qed.

Definition M (A : Type) : Type := list event -> outcome A * list event.

Definition ret {A} (a : A) : M A := fun tr => (Ret a, tr).

Definition bind {A B} (m : M A) (k : A -> M B) : M B :=
  fun tr =>
    match m tr with
    | (Ret a, tr') => k a tr'
    | (Exc e, tr') => (Exc e, tr')
    end.

Definition raise {A} (e : exn) : M A := fun tr => (Exc e, tr).

Definition emit (ev : event) : M unit := fun tr => (Ret tt, tr ++ [ev]).

Definition lift {A} (o : outcome A) : M A := fun tr => (o, tr).

Declare Scope py_scope.
Delimit Scope py_scope with py.
Notation "x <- m ;; k" := (bind m (fun x => k))
  (at level 100, m at next level, right associativity) : py_scope.
Notation "m ;; k" := (bind m (fun _ => k))
  (at level 100, right associativity) : py_scope.
Local Open Scope py_scope.

(** [try: body  except Exception as e: handler(e)] *)
Definition try_except {A} (body : M A) (handler : exn -> M A) : M A :=
  fun tr =>
    match body tr with
    | (Exc e, tr') => if is_Exception e then handler e tr' else (Exc e, tr')
    | r => r
    end.

(** [for x in xs: s = body(x, s)], with [s] the objects the body mutates. *)
Fixpoint for_each {A S} (xs : list A) (body : A -> S -> M S) (s : S) : M S :=
  match xs with
  | [] => ret s
  | x :: xs' => (s' <- body x s ;; for_each xs' body s')
  end.

Definition print (line : pystr) : M unit := emit (EvPrint line).

Definition sys_exit {A} (code : Z) : M A := raise (SystemExit code).

(** [str(e)]; a [KeyError] shows the repr of its key (quoted; keys that need
    escaping are not told apart here). *)
Definition exn_str (e : exn) : pystr :=
  match e with
  | SystemExit code => py (pretty code)
  | KeyError key => py "'" ++ key ++ py "'"
  | ValueError msg => msg
  | Exception msg => msg
  end.

(** [d[key]] *)
Definition getitem (d : Row) (key : pystr) : M pystr :=
  match d !! CStr key with
  | Some v => ret v
  | None => raise (KeyError key)
  end.

(** [wb[sheet_name]] *)
Fixpoint lookup_sheet (sheets : list (pystr * Worksheet)) (name : pystr)
  : option Worksheet :=
  match sheets with
  | [] => None
  | (n, ws) :: rest =>
      if bool_decide (n = name) then Some ws else lookup_sheet rest name
  end.

Definition get_sheet (wb : Workbook) (sheet_name : pystr) : M Worksheet :=
  match lookup_sheet (sheets wb) sheet_name with
  | Some ws => ret ws
  | None =>
      raise (KeyError (py "Worksheet " ++ sheet_name ++ py " does not exist."))
  end.

Definition open_workbook (fs : Files) (path : pystr) : M Workbook :=
  emit (EvLoadWorkbook path) ;; lift (load_workbook fs path).

(** [ppt.save(output_file)] *)
Definition save (fs : Files) (ppt : Presentation) (path : pystr) : M unit :=
  match save_error fs path with
  | None => emit (EvSave path ppt true)
  | Some e => emit (EvSave path ppt false) ;; raise e
  end.

(** Running the monad's plumbing: binds, returns and handlers are unfolded
    and reduced, the program's own functions stay folded. *)
Ltac run_monad :=
  cbv beta iota zeta
      delta [bind ret raise emit lift try_except print sys_exit is_Exception].

(** ** The loaders *)

(** [[data = []; for row in ws.iter_rows(min_row=2, values_only=True): ...]] *)
Definition load_rows (ws : Worksheet) : list Row :=
  map (load_row (first_row ws)) (rows_from_2 ws).

Definition load_data (fs : Files) (input_file : pystr) : M (list Row) :=
  ws <- try_except
          (wb <- open_workbook fs input_file ;; ret (active wb))
          (fun e =>
             print (py "读取Excel文件时发生错误：" ++ exn_str e) ;;
             sys_exit 1) ;;
  let headers := first_row ws in
  let missing := missing_columns headers in
  match missing with
  | _ :: _ =>
      print (py "Excel文件缺少必要的列：" ++ join (py ", ") missing) ;;
      sys_exit 1
  | [] => ret (load_rows ws)
  end.

Definition load_data_from_sheet (fs : Files) (input_file sheet_name : pystr)
  : M (list Row) :=
  ws <- try_except
          (wb <- open_workbook fs input_file ;; get_sheet wb sheet_name)
          (fun e => raise (Exception (py "加载表格失败: " ++ exn_str e))) ;;
  let headers := first_row ws in
  let missing := missing_columns headers in
  match missing with
  | _ :: _ => raise (Exception (py "表格缺少必要的列: " ++ join (py ", ") missing))
  | [] => ret (load_rows ws)
  end.

(** ** The slide layout *)

Definition create_presentation : M Presentation :=
  emit EvNewPresentation ;;
  ret {| slide_width := Some SLIDE_WIDTH; slide_height := Some SLIDE_HEIGHT;
         slides := [] |}.

(** The wrapper at its default threshold, as every caller uses it. *)
Definition wrapped (field : pystr) : M pystr :=
  lift (process_text field TEXT_WRAP_THRESHOLD).

(** [paragraph.text = s]: the text set, or the [ValueError] of lxml on a
    text that XML cannot hold (for a surrogate it is the [ValueError] that
    encoding the text raises; the message is not told apart here). *)
Definition XML_ERROR : pystr :=
  py "All strings must be XML compatible: "
  ++ py "Unicode or ASCII, no NULL bytes or control characters".

Definition assign_text (s : pystr) : M pystr :=
  if xml_text s then ret s else raise (ValueError XML_ERROR).

Definition add_word_textbox (slide : Slide) (l t w h : Z) (word : pystr)
  : M Slide :=
  word_text <- assign_text word ;;
  let word_paragraph :=
    {| alignment := Some CENTER; font_size := Some WORD_FONT_SIZE;
       text := word_text |} in
  let word_textbox := add_paragraph new_text_frame word_paragraph in
  ret (add_textbox slide l t w h (set_auto_size word_textbox TEXT_TO_FIT_SHAPE)).

Definition add_phonetic_textbox (slide : Slide) (l t w h : Z) (phonetic : pystr)
  : M Slide :=
  phonetic_text <- assign_text phonetic ;;
  let phonetic_paragraph :=
    {| alignment := Some CENTER; font_size := Some PHONETIC_FONT_SIZE;
       text := phonetic_text |} in
  let phonetic_textbox := add_paragraph new_text_frame phonetic_paragraph in
  ret (add_textbox slide l t w h
         (set_auto_size phonetic_textbox TEXT_TO_FIT_SHAPE)).

Definition add_morphology_textbox (slide : Slide) (l t w h : Z)
    (morphology : pystr) : M Slide :=
  let morphology_textbox :=
    set_word_wrap (set_auto_size new_text_frame TEXT_TO_FIT_SHAPE) true in
  processed_morphology <- wrapped morphology ;;
  morphology_text <- assign_text (py "词根词缀：" ++ processed_morphology) ;;
  let morphology_paragraph :=
    {| alignment := Some LEFT; font_size := Some CONTENT_FONT_SIZE;
       text := morphology_text |} in
  ret (add_textbox slide l t w h
         (add_paragraph morphology_textbox morphology_paragraph)).

Definition add_example_textbox (slide : Slide) (l t w h : Z)
    (example example_def : pystr) : M Slide :=
  let example_textbox :=
    set_word_wrap (set_auto_size new_text_frame TEXT_TO_FIT_SHAPE) true in
  processed_example <- wrapped example ;;
  processed_example_def <- wrapped example_def ;;
  example_text <- assign_text
                    (py "例句：" ++ processed_example
                     ++ py (String (ascii_of_nat 10) "例句释义：")
                     ++ processed_example_def) ;;
  let example_paragraph :=
    {| alignment := Some LEFT; font_size := Some CONTENT_FONT_SIZE;
       text := example_text |} in
  ret (add_textbox slide l t w h
         (add_paragraph example_textbox example_paragraph)).

Definition add_word_def_textbox (slide : Slide) (l t w h : Z) (word_def : pystr)
  : M Slide :=
  let word_def_textbox := set_auto_size new_text_frame SHAPE_TO_FIT_TEXT in
  processed_word_def <- wrapped word_def ;;
  word_def_text <- assign_text (py "单词释义：" ++ processed_word_def) ;;
  let word_def_paragraph :=
    {| alignment := Some LEFT; font_size := Some CONTENT_FONT_SIZE;
       text := word_def_text |} in
  ret (add_textbox slide l t w h
         (add_paragraph word_def_textbox word_def_paragraph)).

(** [if s:] on a string *)
Definition truthy (s : pystr) : bool :=
  match s with [] => false | _ => true end.

(** The new slide is part of [ppt.slides] from [add_slide] on and is filled
    in place; the model hands the presentation back with the finished slide,
    which is what every later reader of [ppt] sees. *)
Definition generate_slide (ppt : Presentation) (row : Row) : M Presentation :=
  emit EvAddSlide ;;
  let slide : Slide := [] in
  let word_left := Inches (PyInt 4) in
  let word_top := Inches (PyInt 1) in
  let word_width := Inches (PyInt 8) in
  let word_height := Inches (PyInt 2) in
  word <- getitem row (py "英文单词") ;;
  slide <- add_word_textbox slide word_left word_top word_width word_height word ;;
  let phonetic_left := word_left + Inches (PyInt 3) in
  let phonetic_top := word_top + Inches (decimal 14 10) in
  let phonetic_width := Inches (PyInt 2) in
  let phonetic_height := Inches (PyInt 1) in
  phonetic <- getitem row (py "英文音标") ;;
  slide <- add_phonetic_textbox slide phonetic_left phonetic_top
             phonetic_width phonetic_height phonetic ;;
  let morphology_left := Inches (PyInt 2) in
  let morphology_top := word_top + Inches (PyInt 3) in
  let morphology_width := Inches (PyInt 12) in
  let morphology_height := Inches (PyInt 2) in
  morphology <- getitem row (py "词根词缀") ;;
  slide <- add_morphology_textbox slide morphology_left morphology_top
             morphology_width morphology_height morphology ;;
  let example_left := Inches (PyInt 2) in
  let example_top := word_top + Inches (decimal 44 10) in
  let example_width := Inches (PyInt 12) in
  let example_height := Inches (PyInt 3) in
  example <- getitem row (py "例句") ;;
  example_def <- getitem row (py "例句释义") ;;
  slide <- add_example_textbox slide example_left example_top
             example_width example_height example example_def ;;
  word_def <- getitem row (py "单词释义") ;;
  slide <- (if truthy word_def then
              let word_def_left := Inches (PyInt 2) in
              let word_def_top := word_top + Inches (PyInt 2) in
              let word_def_width := Inches (PyInt 8) in
              let word_def_height := Inches (decimal 15 10) in
              word_def' <- getitem row (py "单词释义") ;;
              add_word_def_textbox slide word_def_left word_def_top
                word_def_width word_def_height word_def'
            else ret slide) ;;
  ret {| slide_width := slide_width ppt; slide_height := slide_height ppt;
         slides := slides ppt ++ [slide] |}.

(** ** The deck builders *)

(** [str(n)] of an [int], as an f-string shows it. *)
Definition str_int (n : Z) : pystr := py (pretty n).

(** The loop of [generate_ppt]:
    [[
    for index, row in enumerate(data):
        if (index + 1) % 10 == 0 or index + 1 == word_count:
            print(f"处理进度：{index + 1}/{word_count}")
        generate_slide(ppt, row)
    ]] *)
Definition generate_ppt_step (word_count : Z) (item : nat * Row)
    (ppt : Presentation) : M Presentation :=
  let '(index, row) := item in
  let index := Z.of_nat index in
  (if ((index + 1) mod 10 =? 0) || (index + 1 =? word_count)
   then print (py "处理进度：" ++ str_int (index + 1) ++ py "/"
               ++ str_int word_count)
   else ret tt) ;;
  generate_slide ppt row.

Definition generate_ppt (fs : Files) (input_file output_file : option pystr)
  : M Z :=
  let input_file := default (py "words.xlsx") input_file in
  let output_file := default (py "words.pptx") output_file in
  data <- load_data fs input_file ;;
  ppt <- create_presentation ;;
  let word_count := len data in
  print (py "开始生成PPT，共 " ++ str_int word_count ++ py " 个单词...") ;;
  ppt <- for_each (enumerate data) (generate_ppt_step word_count) ppt ;;
  try_except
    (save fs ppt output_file ;;
     print (py (String (ascii_of_nat 10) "成功生成PPT文件：") ++ output_file) ;;
     print (py "共处理 " ++ str_int word_count ++ py " 个单词") ;;
     ret word_count)
    (fun e =>
       print (py "保存演示文稿时发生错误：" ++ exn_str e) ;;
       ret 0).

Definition generate_ppt_from_sheet (fs : Files)
    (input_file output_file sheet_name : pystr) : M Z :=
  data <- load_data_from_sheet fs input_file sheet_name ;;
  ppt <- create_presentation ;;
  let word_count := len data in
  ppt <- for_each (enumerate data)
           (fun '(index, row) ppt => generate_slide ppt row) ppt ;;
  try_except
    (save fs ppt output_file ;; ret word_count)
    (fun e => raise (Exception (py "保存演示文稿时发生错误: " ++ exn_str e))).

(** A run from the empty trace. *)
Definition run {A} (m : M A) : outcome A * list event := m [].

(** ** Reading a trace *)

(** The attempts to save: path, deck, and whether the file was written. *)
Fixpoint saves (tr : list event) : list (pystr * Presentation * bool) :=
  match tr with
  | [] => []
  | EvSave path ppt written :: tr' => (path, ppt, written) :: saves tr'
  | _ :: tr' => saves tr'
  end.

(** The number of slides created. *)
Fixpoint slides_added (tr : list event) : nat :=
  match tr with
  | [] => O
  | EvAddSlide :: tr' => S (slides_added tr')
  | _ :: tr' => slides_added tr'
  end.

(** [slide] is the slide that [generate_slide] builds from [row]. *)
Definition builds (row : Row) (slide : Slide) : Prop :=
  forall ppt tr,
    generate_slide ppt row tr
    = (Ret {| slide_width := slide_width ppt; slide_height := slide_height ppt;
              slides := slides ppt ++ [slide] |},
       tr ++ [EvAddSlide]).

(** ** The words of the specification *)

(** [dict(pairs)]: a later pair replaces an earlier one with the same key. *)
Definition put_pair (d : Row) (p : cell * pystr) : Row :=
  let '(k, v) := p in <[dict_key k := v]> d.

Definition dict_of_pairs (pairs : list (cell * pystr)) : Row :=
  fold_left put_pair pairs ∅.

(** Lengths of the layout table: tenths of an inch, and points. *)
Definition tenth_inches (n : Z) : Z := n * 91440.
Definition points (n : Z) : Z := n * 12700.

(** The wrapped text of a field at the default threshold. *)
Definition wrap_default (field : pystr) : pystr :=
  match process_text field TEXT_WRAP_THRESHOLD with
  | Ret processed => processed
  | Exc _ => field
  end.

(** A row of the layout table: the rectangle [(l, t, w, h)] in tenths of an
    inch, the container sizing policy, and the size, alignment and text of
    the paragraph the program adds after the text frame's own empty one. *)
Definition region (l t w h : Z) (fit : MSO_AUTO_SIZE) (wrap : option bool)
    (size : Z) (al : PP_PARAGRAPH_ALIGNMENT) (txt : pystr) : TextBox :=
  {| left := tenth_inches l; top := tenth_inches t;
     width := tenth_inches w; height := tenth_inches h;
     text_frame :=
       {| auto_size := Some fit; word_wrap := wrap;
          paragraphs :=
            [empty_paragraph;
             {| alignment := Some al; font_size := Some (points size);
                text := txt |}] |} |}.

(** The text of a region: that of the paragraph the program added. *)
Definition region_text (tb : TextBox) : pystr :=
  text (List.last (paragraphs (text_frame tb)) empty_paragraph).

Definition word_region (word : pystr) : TextBox :=
  region 40 10 80 20 TEXT_TO_FIT_SHAPE None 72 CENTER word.

Definition phonetic_region (phonetic : pystr) : TextBox :=
  region 70 24 20 10 TEXT_TO_FIT_SHAPE None 32 CENTER phonetic.

Definition morphology_region (morphology : pystr) : TextBox :=
  region 20 40 120 20 TEXT_TO_FIT_SHAPE (Some true) 32 LEFT
    (py "词根词缀：" ++ wrap_default morphology).

Definition example_region (example example_def : pystr) : TextBox :=
  region 20 54 120 30 TEXT_TO_FIT_SHAPE (Some true) 32 LEFT
    (py "例句：" ++ wrap_default example
     ++ py (String (ascii_of_nat 10) "例句释义：") ++ wrap_default example_def).

Definition definition_region (word_def : pystr) : TextBox :=
  region 20 30 80 15 SHAPE_TO_FIT_TEXT None 32 LEFT
    (py "单词释义：" ++ wrap_default word_def).

(** The four regions every slide has. *)
Definition fixed_regions (word phonetic morphology example example_def : pystr)
  : list TextBox :=
  [word_region word; phonetic_region phonetic; morphology_region morphology;
   example_region example example_def].

(** The slide of the layout table for the six fields of a record. *)
Definition table_slide
    (word phonetic morphology example example_def word_def : pystr) : Slide :=
  fixed_regions word phonetic morphology example example_def
  ++ (if truthy word_def then [definition_region word_def] else []).

(** A field of a record, empty when the record lacks it. *)
Definition field (row : Row) (name : pystr) : pystr :=
  default [] (row !! CStr name).

(** The slide of the layout table for a record. *)
Definition slide_of_row (row : Row) : Slide :=
  table_slide (field row (py "英文单词")) (field row (py "英文音标"))
    (field row (py "词根词缀")) (field row (py "例句"))
    (field row (py "例句释义")) (field row (py "单词释义")).

(** A record with all six fields. *)
Definition complete (row : Row) : Prop :=
  forall col, col ∈ REQUIRED_COLUMNS -> is_Some (row !! CStr col).

(** A record whose required fields, where it has them, hold text that XML
    can hold. *)
Definition xml_record (row : Row) : Prop :=
  forall col v,
    col ∈ REQUIRED_COLUMNS -> row !! CStr col = Some v -> xml_text v = true.

(** A record that a slide can be built from. *)
Definition ready (row : Row) : Prop := complete row /\ xml_record row.

(** The deck with the given slides on the program's canvas. *)
Definition deck (slides : list Slide) : Presentation :=
  {| slide_width := Some SLIDE_WIDTH; slide_height := Some SLIDE_HEIGHT;
     slides := slides |}.

(** Whether saving to [path] writes the file. *)
Definition writable (fs : Files) (path : pystr) : bool :=
  match save_error fs path with None => true | Some _ => false end.

(** The deck of a worksheet: the slide of every record, in row order. *)
Definition built (ws : Worksheet) : Presentation :=
  deck (map slide_of_row (load_rows ws)).

(** What is left of [generate_ppt] once the data is loaded and the slides
    are built: the save, the two closing prints, or the handler. *)
Definition batch_end (fs : Files) (ws : Worksheet) (output : pystr)
  : outcome Z * list event :=
  match save_error fs output with
  | None =>
      (Ret (len (rows_from_2 ws)),
       [EvSave output (built ws) true;
        EvPrint (py (String (ascii_of_nat 10) "成功生成PPT文件：") ++ output);
        EvPrint (py "共处理 " ++ str_int (len (rows_from_2 ws))
                 ++ py " 个单词")])
  | Some e =>
      if is_Exception e
      then (Ret 0,
            [EvSave output (built ws) false;
             EvPrint (py "保存演示文稿时发生错误：" ++ exn_str e)])
      else (Exc e, [EvSave output (built ws) false])
  end.

(** The same for [generate_ppt_from_sheet]: the save, or the handler that
    raises again. *)
Definition sheet_end (fs : Files) (ws : Worksheet) (output : pystr)
  : outcome Z * list event :=
  match save_error fs output with
  | None => (Ret (len (rows_from_2 ws)), [EvSave output (built ws) true])
  | Some e =>
      if is_Exception e
      then (Exc (Exception (py "保存演示文稿时发生错误: " ++ exn_str e)),
            [EvSave output (built ws) false])
      else (Exc e, [EvSave output (built ws) false])
  end.

(** [ppt] with one more slide. *)
Definition with_slide (ppt : Presentation) (slide : Slide) : Presentation :=
  {| slide_width := slide_width ppt; slide_height := slide_height ppt;
     slides := slides ppt ++ [slide] |}.

(** A loop body that adds the slide of its row and saves nothing. *)
Definition adds_one_slide (body : nat * Row -> Presentation -> M Presentation)
  : Prop :=
  forall i row ppt tr,
    ready row ->
    exists tr',
      body (i, row) ppt tr = (Ret (with_slide ppt (slide_of_row row)), tr') /\
      saves tr' = saves tr /\
      slides_added tr' = S (slides_added tr).

(** A text box sits at the rectangle of the definition region. *)
Definition at_definition_rectangle (tb : TextBox) : Prop :=
  left tb = tenth_inches 20 /\ top tb = tenth_inches 30 /\
  width tb = tenth_inches 80 /\ height tb = tenth_inches 15.

(** The six fields of a record. *)
Definition has_fields (row : Row)
    (word phonetic morphology example example_def word_def : pystr) : Prop :=
  row !! CStr (py "英文单词") = Some word /\
  row !! CStr (py "英文音标") = Some phonetic /\
  row !! CStr (py "词根词缀") = Some morphology /\
  row !! CStr (py "例句") = Some example /\
  row !! CStr (py "例句释义") = Some example_def /\
  row !! CStr (py "单词释义") = Some word_def.

(** The first line of a text: up to its first newline. *)
Fixpoint first_line (s : pystr) : pystr :=
  match s with
  | [] => []
  | c :: s' => if (c =? 10)%N then [] else c :: first_line s'
  end.

(** ** The template workbook of 创建模板.py *)

Module Template.

Definition headers : list cell :=
  map CStr [py "英文单词"; py "英文音标"; py "词根词缀"; py "例句"; py "例句释义";
            py "单词释义"].

Definition example_data : list (list cell) :=
  map (map CStr)
    [[py "apple"; py "/ˈæpl/"; py "a-pple"; py "I eat an apple every day.";
      py "我每天吃一个苹果。"; py "苹果"];
     [py "banana"; py "/bəˈnɑːnə/"; py "ban-ana"; py "Bananas are yellow.";
      py "香蕉是黄色的。"; py "香蕉"];
     [py "cat"; py "/kæt/"; py "cat"; py "The cat is sleeping.";
      py "猫在睡觉。"; py "猫"];
     [py "dog"; py "/dɒɡ/"; py "dog"; py "Dogs are loyal animals.";
      py "狗是忠诚的动物。"; py "狗"];
     [py "elephant"; py "/ˈelɪfənt/"; py "ele-ph-ant";
      py "Elephants have long trunks."; py "大象有长长的鼻子。"; py "大象"]].

(** The sheet "单词表" the script writes, as the loader reads it back. *)
Definition ws : Worksheet :=
  {| first_row := headers; rows_from_2 := example_data |}.

Definition wb : Workbook :=
  {| active := ws; sheets := [(py "单词表", ws)] |}.

(** A file system where every path opens the template and every save
    succeeds, and one where every save is refused. *)
Definition fs : Files :=
  {| load_workbook := fun _ => Ret wb; save_error := fun _ => None;
     load_workbook_xml := serves_xml wb eq_refl |}.

Definition fs_read_only : Files :=
  {| load_workbook := fun _ => Ret wb;
     save_error := fun _ => Some (Exception (py "Permission denied"));
     load_workbook_xml := serves_xml wb eq_refl |}.

(** The template without its last column and without data rows. *)
Definition ws_no_definition : Worksheet :=
  {| first_row := take 5 headers; rows_from_2 := map (take 5) example_data |}.

Definition wb_no_definition : Workbook :=
  {| active := ws_no_definition; sheets := [(py "单词表", ws_no_definition)] |}.

Definition fs_no_definition : Files :=
  {| load_workbook := fun _ => Ret wb_no_definition;
     save_error := fun _ => None;
     load_workbook_xml := serves_xml wb_no_definition eq_refl |}.

Definition ws_empty : Worksheet :=
  {| first_row := headers; rows_from_2 := [] |}.

Definition wb_empty : Workbook :=
  {| active := ws_empty; sheets := [(py "单词表", ws_empty)] |}.

Definition fs_empty : Files :=
  {| load_workbook := fun _ => Ret wb_empty; save_error := fun _ => None;
     load_workbook_xml := serves_xml wb_empty eq_refl |}.

End Template.

(** ** The interactive shell: the methods of PPTGeneratorGUI

    The form is the values its variables and widgets hold, with the message
    boxes it has shown, oldest first. A file dialog enters a method as the
    path it returned (the empty string when cancelled). [os.path.basename],
    whose result depends on the platform, is a parameter. *)

Inductive dialog :=
| showwarning (title message : pystr)
| showinfo (title message : pystr)
| showerror (title message : pystr).

Inductive widget_state := normal | disabled.

Record Gui := {
  input_path_var : pystr;
  sheet_var : pystr;
  output_path_var : pystr;
  status_var : pystr;
  sheet_combo_values : list pystr;
  sheet_combo_state : widget_state;
  refresh_sheets_button_state : widget_state;
  current_workbook : option Workbook;
  current_sheet : option pystr;
  dialogs : list dialog
}.

(** The form as [__init__] leaves it. *)
Definition init_gui : Gui :=
  {| input_path_var := []; sheet_var := [];
     output_path_var := py "words.pptx"; status_var := py "就绪";
     sheet_combo_values := []; sheet_combo_state := disabled;
     refresh_sheets_button_state := disabled;
     current_workbook := None; current_sheet := None; dialogs := [] |}.

Definition set_input_path (g : Gui) (v : pystr) : Gui :=
  {| input_path_var := v; sheet_var := sheet_var g;
     output_path_var := output_path_var g; status_var := status_var g;
     sheet_combo_values := sheet_combo_values g;
     sheet_combo_state := sheet_combo_state g;
     refresh_sheets_button_state := refresh_sheets_button_state g;
     current_workbook := current_workbook g;
     current_sheet := current_sheet g; dialogs := dialogs g |}.

Definition set_output_path (g : Gui) (v : pystr) : Gui :=
  {| input_path_var := input_path_var g; sheet_var := sheet_var g;
     output_path_var := v; status_var := status_var g;
     sheet_combo_values := sheet_combo_values g;
     sheet_combo_state := sheet_combo_state g;
     refresh_sheets_button_state := refresh_sheets_button_state g;
     current_workbook := current_workbook g;
     current_sheet := current_sheet g; dialogs := dialogs g |}.

Definition set_status (g : Gui) (v : pystr) : Gui :=
  {| input_path_var := input_path_var g; sheet_var := sheet_var g;
     output_path_var := output_path_var g; status_var := v;
     sheet_combo_values := sheet_combo_values g;
     sheet_combo_state := sheet_combo_state g;
     refresh_sheets_button_state := refresh_sheets_button_state g;
     current_workbook := current_workbook g;
     current_sheet := current_sheet g; dialogs := dialogs g |}.

(** [messagebox.show...(title, message)] *)
Definition show (g : Gui) (d : dialog) : Gui :=
  {| input_path_var := input_path_var g; sheet_var := sheet_var g;
     output_path_var := output_path_var g; status_var := status_var g;
     sheet_combo_values := sheet_combo_values g;
     sheet_combo_state := sheet_combo_state g;
     refresh_sheets_button_state := refresh_sheets_button_state g;
     current_workbook := current_workbook g;
     current_sheet := current_sheet g; dialogs := dialogs g ++ [d] |}.

(** Both widgets enabled or disabled together, as the browse method does. *)
Definition set_sheet_widgets (g : Gui) (st : widget_state) : Gui :=
  {| input_path_var := input_path_var g; sheet_var := sheet_var g;
     output_path_var := output_path_var g; status_var := status_var g;
     sheet_combo_values := sheet_combo_values g;
     sheet_combo_state := st; refresh_sheets_button_state := st;
     current_workbook := current_workbook g;
     current_sheet := current_sheet g; dialogs := dialogs g |}.

(** The statements both loaders of the sheet list share:
    [[
    self.current_workbook = load_workbook(path)
    sheet_names = self.current_workbook.sheetnames
    self.sheet_combo['values'] = sheet_names
    if sheet_names:
        self.sheet_var.set(sheet_names[0])
        self.current_sheet = sheet_names[0]
    ]] *)
Definition sheetnames (wb : Workbook) : list pystr := map fst (sheets wb).

Definition take_sheets (g : Gui) (wb : Workbook) : Gui :=
  let sheet_names := sheetnames wb in
  {| input_path_var := input_path_var g;
     sheet_var := match sheet_names with n :: _ => n | [] => sheet_var g end;
     output_path_var := output_path_var g; status_var := status_var g;
     sheet_combo_values := sheet_names;
     sheet_combo_state := sheet_combo_state g;
     refresh_sheets_button_state := refresh_sheets_button_state g;
     current_workbook := Some wb;
     current_sheet := match sheet_names with
                      | n :: _ => Some n
                      | [] => current_sheet g
                      end;
     dialogs := dialogs g |}.

(** A method's result: how it ended, the form, and the trace. *)
Definition GuiResult : Type := outcome unit * Gui * list event.

Section Shell.

Variable basename : pystr -> pystr.
Variable fs : Files.

Definition browse_input_file (file_path : pystr) (g : Gui) (tr : list event)
  : GuiResult :=
  if truthy file_path then
    let g := set_input_path g file_path in
    let g := set_status g (py "已选择文件: " ++ basename file_path) in
    match open_workbook fs file_path tr with
    | (Ret wb, tr') =>
        let g := set_sheet_widgets (take_sheets g wb) normal in
        (Ret tt,
         set_status g (py "已加载文件: " ++ basename file_path ++ py "，包含 "
                       ++ str_int (len (sheetnames wb)) ++ py " 个表格"),
         tr')
    | (Exc e, tr') =>
        if is_Exception e then
          let g := show g (showerror (py "错误")
                             (py "加载文件失败: " ++ exn_str e)) in
          (Ret tt, set_sheet_widgets (set_status g (py "加载文件失败")) disabled,
           tr')
        else (Exc e, g, tr')
    end
  else (Ret tt, g, tr).

Definition browse_output_file (file_path : pystr) (g : Gui) : Gui :=
  if truthy file_path then
    set_status (set_output_path g file_path)
      (py "已设置输出文件: " ++ basename file_path)
  else g.

Definition refresh_sheets (g : Gui) (tr : list event) : GuiResult :=
  let input_path := input_path_var g in
  if negb (truthy input_path) then
    (Ret tt, show g (showwarning (py "警告") (py "请先选择输入文件")), tr)
  else
    match open_workbook fs input_path tr with
    | (Ret wb, tr') =>
        (Ret tt,
         set_status (take_sheets g wb)
           (py "已刷新表格列表，包含 " ++ str_int (len (sheetnames wb))
            ++ py " 个表格"),
         tr')
    | (Exc e, tr') =>
        if is_Exception e then
          let g := show g (showerror (py "错误")
                             (py "刷新表格失败: " ++ exn_str e)) in
          (Ret tt, set_status g (py "刷新表格失败"), tr')
        else (Exc e, g, tr')
    end.

(** [generate]; [self.master.update()] redraws the form and changes none of
    its values. *)
Definition generate (g : Gui) (tr : list event) : GuiResult :=
  let input_path := input_path_var g in
  if negb (truthy input_path) then
    (Ret tt, show g (showwarning (py "警告") (py "请先选择输入文件")), tr)
  else
  let sheet_name := sheet_var g in
  if negb (truthy sheet_name) then
    (Ret tt, show g (showwarning (py "警告") (py "请选择表格")), tr)
  else
  let output_path := output_path_var g in
  if negb (truthy output_path) then
    (Ret tt, show g (showwarning (py "警告") (py "请设置输出文件路径")), tr)
  else
    let g := set_status g (py "正在生成PPT...") in
    match generate_ppt_from_sheet fs input_path output_path sheet_name tr with
    | (Ret word_count, tr') =>
        if 0 <? word_count then
          let g := show g (showinfo (py "成功")
                     (py "PPT生成成功！" ++ [10%N] ++ py "共处理 "
                      ++ str_int word_count ++ py " 个单词" ++ [10%N]
                      ++ py "输出文件: " ++ output_path)) in
          (Ret tt,
           set_status g (py "PPT生成成功，共处理 " ++ str_int word_count
                         ++ py " 个单词"),
           tr')
        else
          let g := show g (showwarning (py "警告")
                     (py "PPT生成失败，可能是因为表格中没有数据")) in
          (Ret tt, set_status g (py "PPT生成失败"), tr')
    | (Exc e, tr') =>
        if is_Exception e then
          let g := show g (showerror (py "错误")
                             (py "生成PPT失败: " ++ exn_str e)) in
          (Ret tt, set_status g (py "生成PPT失败: " ++ exn_str e), tr')
        else (Exc e, g, tr')
    end.

End Shell.

(** ** main

    [args] is what [parse_args] returns; the form's event loop, entered when
    no file is named and tkinter is there, is a parameter. *)

Record Namespace := {
  args_input : option pystr;     (* args.input *)
  args_output : option pystr     (* args.output *)
}.

(** The truth value of an optional string: [None] and [''] are false. *)
Definition given (x : option pystr) : bool :=
  match x with Some s => truthy s | None => false end.

Definition main (fs : Files) (HAS_GUI : bool) (args : Namespace)
    (mainloop : M unit) : M unit :=
  if negb (given (args_input args) || given (args_output args)) && HAS_GUI
  then mainloop
  else (generate_ppt fs (args_input args) (args_output args) ;; ret tt).

(** Every exception the file system raises is an [Exception]. *)
Definition raises_exceptions_only (files : Files) : Prop :=
  (forall path e, load_workbook files path = Exc e -> is_Exception e = true) /\
  (forall path e, save_error files path = Some e -> is_Exception e = true).

(** ** Writing the template: 创建模板.py

    The script fills a new sheet cell by cell, [ws.cell(row, column, value)]
    with rows and columns counted from 1; the sheet then spans rows 1 to
    [max_row] and columns 1 to [max_column] of the cells written, a cell
    never written reading as [None]. *)

Definition Cells := gmap (nat * nat) cell.

(** [for col, value in enumerate(values, 1): ws.cell(row, col, value)] *)
Definition write_row (r : nat) (values : list cell) (cells : Cells) : Cells :=
  fold_left (fun (acc : Cells) '(i, value) => <[(r, S i) := value]> acc)
            (enumerate values) cells.

(** [for row, data in enumerate(example_data, 2): ...] *)
Definition write_rows (first : nat) (data : list (list cell)) (cells : Cells)
  : Cells :=
  fold_left (fun (acc : Cells) '(i, values) => write_row (first + i) values acc)
            (enumerate data) cells.

Definition max_row (cells : Cells) : nat :=
  map_fold (fun '(r, _) _ m => Nat.max r m) 0%nat cells.

Definition max_column (cells : Cells) : nat :=
  map_fold (fun '(_, c) _ m => Nat.max c m) 0%nat cells.

Definition read_row (cells : Cells) (r : nat) : list cell :=
  map (fun c => default CNone (cells !! (r, c))) (seq 1 (max_column cells)).

(** The sheet as the loader reads it back. *)
Definition sheet_of_cells (cells : Cells) : Worksheet :=
  {| first_row := read_row cells 1;
     rows_from_2 := map (read_row cells) (seq 2 (max_row cells - 1)) |}.

(** The cells the script writes: the header row, then the example rows. *)
Definition template_cells : Cells :=
  write_rows 2 Template.example_data (write_row 1 Template.headers ∅).

(** ** Further notions for the slide of a record *)

(** The record has no value under the column name. *)
Definition lacks (row : Row) (col : pystr) : bool :=
  match row !! CStr col with None => true | Some _ => false end.

(** [xml_record], decided. *)
Definition xml_fields (row : Row) : bool :=
  forallb
    (fun col => match row !! CStr col with Some v => xml_text v | None => true end)
    REQUIRED_COLUMNS.

(** What stops [generate_slide] on a record, if anything: the fields are
    looked up and their texts set in the order of the source, the example
    and its translation looked up together before their text is set, and
    the definition set only when it is not empty. *)
Definition text_failure (ok : bool) (next : option exn) : option exn :=
  if ok then next else Some (ValueError XML_ERROR).

Definition field_failure (row : Row) (col : pystr)
    (next : pystr -> option exn) : option exn :=
  match row !! CStr col with
  | None => Some (KeyError col)
  | Some v => next v
  end.

Definition slide_failure (row : Row) : option exn :=
  field_failure row (py "英文单词") (fun word =>
  text_failure (xml_text word) (
  field_failure row (py "英文音标") (fun phonetic =>
  text_failure (xml_text phonetic) (
  field_failure row (py "词根词缀") (fun morphology =>
  text_failure (xml_text morphology) (
  field_failure row (py "例句") (fun example =>
  field_failure row (py "例句释义") (fun example_def =>
  text_failure (xml_text example && xml_text example_def) (
  field_failure row (py "单词释义") (fun word_def =>
  text_failure (negb (truthy word_def) || xml_text word_def) None)))))))))).

(** A text box lies on the canvas of the deck. *)
Definition on_canvas (tb : TextBox) : Prop :=
  0 <= left tb /\ 0 <= top tb /\ 0 < width tb /\ 0 < height tb /\
  left tb + width tb <= SLIDE_WIDTH /\ top tb + height tb <= SLIDE_HEIGHT.

(** Two text boxes whose rectangles share an area. *)
Definition overlap (a b : TextBox) : Prop :=
  left a < left b + width b /\ left b < left a + width a /\
  top a < top b + height b /\ top b < top a + height a.

(** ** Further notions for a run *)

(** The lines a run printed, oldest first. *)
Fixpoint printed (tr : list event) : list pystr :=
  match tr with
  | [] => []
  | EvPrint line :: tr' => line :: printed tr'
  | _ :: tr' => printed tr'
  end.

(** Whether the loop of [generate_ppt] reports progress at record [k],
    counted from 1, of [word_count]. *)
Definition reports_progress (word_count k : Z) : bool :=
  (k mod 10 =? 0) || (k =? word_count).

Definition progress_line (word_count k : Z) : pystr :=
  py "处理进度：" ++ str_int k ++ py "/" ++ str_int word_count.

(** The progress lines of records [first], ..., [first + count - 1]. *)
Definition progress_lines (word_count : Z) (first count : nat) : list pystr :=
  map (progress_line word_count)
      (filter (fun k => reports_progress word_count k = true)
              (map Z.of_nat (seq first count))).

(** A file system where no workbook can be opened. *)
Definition fs_unreadable : Files :=
  {| load_workbook := fun _ => Exc (Exception (py "No such file or directory"));
     save_error := fun _ => None;
     load_workbook_xml := serves_nothing _ |}.

(** ** The wrapper's chunks, and stripping the separators again *)

(** The lines [text[i:i+t]] for [i = 0, t, 2t, ...], [n] of them. *)
Definition chunks (t n : nat) (text : pystr) : list pystr :=
  map (fun k => take t (drop (k * t) text)) (seq 0 n).

(** Reading a wrapped text back: [t] characters are kept, the separator after
    them is skipped, and so on to the end of the text. *)
Fixpoint strip_go (fuel t : nat) (out : pystr) : pystr :=
  match fuel with
  | O => []
  | S fuel' =>
      take t out ++ strip_go fuel' t (drop (t + length WRAP_SEPARATOR) out)
  end.

Definition strip_separators (threshold : Z) (out : pystr) : pystr :=
  strip_go (S (length out)) (Z.to_nat threshold) out.

(** What it is for [process_text text threshold] to wrap [text]: the result
    is full lines of [threshold] characters and a last, shorter or equal,
    non-empty one, joined by the separator; the lines put end to end are the
    text, and so is the result with its separators stripped. *)
Definition wraps_into_chunks (text : pystr) (threshold : Z) : Prop :=
  exists (lines : list pystr) (last : pystr),
    process_text text threshold = Ret (join WRAP_SEPARATOR (lines ++ [last])) /\
    Forall (fun l => len l = threshold) lines /\
    0 < len last <= threshold /\
    concat (lines ++ [last]) = text /\
    strip_separators threshold (join WRAP_SEPARATOR (lines ++ [last])) = text.

Section Chunks.

Lemma chunks_S t n text :
  chunks t (S n) text = take t text :: chunks t n (drop t text).
Proof.
  unfold chunks. rewrite <- cons_seq, <- fmap_S_seq. simpl.
  f_equal. rewrite <- list_fmap_compose. apply list_fmap_ext.
  intros _ k _. simpl. rewrite drop_drop. do 2 f_equal; lia.
Qed.

Lemma chunks_concat t n (text : pystr) :
  (length text <= n * t)%nat -> concat (chunks t n text) = text.
Proof.
  revert text. induction n as [|n IH]; intros text Hlen.
  - destruct text; [reflexivity | simpl in Hlen; lia].
  - rewrite chunks_S. simpl. rewrite IH.
    + apply take_drop.
    + rewrite length_drop. lia.
Qed.

Lemma chunks_full t n (text : pystr) :
  (n * t <= length text)%nat -> Forall (fun l => length l = t) (chunks t n text).
Proof.
  revert text. induction n as [|n IH]; intros text Hlen.
  - constructor.
  - rewrite chunks_S. constructor.
    + rewrite length_take. lia.
    + apply IH. rewrite length_drop. lia.
Qed.

Lemma chunks_snoc t n text :
  chunks t (S n) text = chunks t n text ++ [take t (drop (n * t) text)].
Proof. unfold chunks. rewrite seq_S, map_app. reflexivity. Qed.

Lemma join_cons sep l (ls : list pystr) :
  ls <> [] -> join sep (l :: ls) = l ++ sep ++ join sep ls.
Proof. destruct ls; [congruence | reflexivity]. Qed.

Lemma strip_go_nil fuel t : strip_go fuel t [] = [].
Proof.
  induction fuel as [|fuel IH]; [reflexivity|].
  simpl. rewrite take_nil, drop_nil. exact IH.
Qed.

Lemma strip_go_join fuel t (lines : list pystr) (last : pystr) :
  Forall (fun l => length l = t) lines ->
  (length last <= t)%nat ->
  (length lines < fuel)%nat ->
  strip_go fuel t (join WRAP_SEPARATOR (lines ++ [last]))
  = concat (lines ++ [last]).
Proof.
  revert fuel. induction lines as [|l lines IH]; intros fuel Hfull Hlast Hfuel.
  - destruct fuel as [|fuel]; [simpl in Hfuel; lia|].
    simpl. rewrite take_ge by lia. rewrite drop_ge by lia.
    rewrite strip_go_nil. reflexivity.
  - destruct fuel as [|fuel]; [simpl in Hfuel; lia|].
    inversion Hfull as [|? ? Hl Hrest]; subst.
    change ((l :: lines) ++ [last]) with (l :: (lines ++ [last])).
    rewrite join_cons by (destruct lines; discriminate).
    cbn [strip_go concat].
    rewrite take_app_length. f_equal.
    rewrite app_assoc, <- length_app, drop_app_length.
    apply IH; [assumption | assumption | simpl in Hfuel; lia].
Qed.

End Chunks.

(** ** The wrapper *)

Example process_text_short :
  process_text (py "apple") 40 = Ret (py "apple").
Proof. reflexivity. Qed.

Example process_text_wrap :
  process_text (py "abcdefg") 3
  = Ret (py "abc" ++ WRAP_SEPARATOR ++ py "def" ++ WRAP_SEPARATOR ++ py "g").
Proof. reflexivity. Qed.

Example process_text_cjk :
  process_text (py "词根词缀：") 2
  = Ret (py "词根" ++ WRAP_SEPARATOR ++ py "词缀" ++ WRAP_SEPARATOR ++ py "：").
Proof. reflexivity. Qed.

Example process_text_zero :
  process_text (py "a") 0 = Exc (ValueError (py "range() arg 3 must not be zero")).
Proof. reflexivity. Qed.

Example process_text_negative : process_text (py "a") (-1) = Ret [].
Proof. reflexivity. Qed.

Section Wrapper.

Lemma slice_chunk (text : pystr) (i t : nat) :
  (i <= length text)%nat ->
  slice text (Z.of_nat i) (Z.of_nat i + Z.of_nat t) = take t (drop i text).
Proof.
  intros Hi. unfold slice, slice_bound, len.
  destruct (Z.ltb_spec (Z.of_nat i) 0) as [?|_]; [lia|].
  destruct (Z.ltb_spec (Z.of_nat i + Z.of_nat t) 0) as [?|_]; [lia|].
  replace (Z.to_nat (Z.min (Z.of_nat i) (Z.of_nat (length text)))) with i by lia.
  destruct (Nat.le_gt_cases (i + t) (length text)) as [Hfit|Hover].
  - f_equal. lia.
  - rewrite !take_ge; [reflexivity | | ]; rewrite length_drop; lia.
Qed.

(** The number of lines of a wrapped text: one more than the number of
    full lines before the last. *)
Lemma range_len_chunks (n t : Z) :
  0 < t -> t < n ->
  exists m : nat,
    range_len 0 n t = S m /\ (1 <= m)%nat /\
    Z.of_nat m * t < n <= Z.of_nat (S m) * t.
Proof.
  intros Ht Hn. unfold range_len.
  destruct (Z.ltb_spec 0 t) as [_|?]; [|lia].
  set (q := (n - 0 + t - 1) / t).
  assert (Hq : t * q <= n - 0 + t - 1 < t * q + t).
  { pose proof (Z.mul_div_le (n - 0 + t - 1) t Ht).
    pose proof (Z.mul_succ_div_gt (n - 0 + t - 1) t Ht). fold q in H, H0. lia. }
  assert (2 <= q) by nia.
  exists (Z.to_nat (q - 1)). split; [lia|]. split; [lia|].
  rewrite Nat2Z.inj_succ, Z2Nat.id by lia. nia.
Qed.

Lemma process_text_long (text : pystr) (threshold : Z) :
  0 < threshold -> threshold < len text ->
  process_text text threshold
  = Ret (join WRAP_SEPARATOR
           (chunks (Z.to_nat threshold) (range_len 0 (len text) threshold) text)).
Proof.
  intros Ht Hlong. unfold process_text, range.
  destruct (Z.leb_spec (len text) threshold) as [?|_]; [lia|].
  destruct (Z.eqb_spec threshold 0) as [?|_]; [lia|].
  destruct (range_len_chunks (len text) threshold Ht Hlong)
    as (m & Hn & _ & Hm & _).
  cbv zeta. do 2 f_equal. unfold chunks. rewrite map_map.
  apply map_ext_in. intros k Hk. apply in_seq in Hk.
  replace (0 + Z.of_nat k * threshold)
    with (Z.of_nat (k * Z.to_nat threshold)) by lia.
  replace threshold with (Z.of_nat (Z.to_nat threshold)) at 3 by lia.
  apply slice_chunk. unfold len in Hm. nia.
Qed.

Lemma process_text_le (text : pystr) (threshold : Z) :
  len text <= threshold -> process_text text threshold = Ret text.
Proof.
  intros Hshort. unfold process_text.
  destruct (Z.leb_spec (len text) threshold) as [_|?]; [reflexivity | lia].
Qed.

(** The wrapper never fails at the default threshold. *)
Lemma process_text_default (field : pystr) :
  exists processed, process_text field TEXT_WRAP_THRESHOLD = Ret processed.
Proof.
  unfold process_text.
  destruct (len field <=? TEXT_WRAP_THRESHOLD); eauto.
Qed.

End Wrapper.

Lemma join_length_ge sep (ls : list pystr) :
  (length (concat ls) <= length (join sep ls))%nat.
Proof.
  induction ls as [|l ls IH]; [reflexivity|].
  destruct ls as [|l' ls].
  - simpl. rewrite app_nil_r. reflexivity.
  - rewrite join_cons by discriminate.
    change (concat (l :: l' :: ls)) with (l ++ concat (l' :: ls)).
    rewrite !length_app. lia.
Qed.

(** C4: a text no longer than the threshold comes back unchanged, whatever
    the threshold; wrapping it again changes nothing either. *)
Theorem process_text_short_unchanged (text : pystr) (threshold : Z) :
  len text <= threshold ->
  process_text text threshold = Ret text /\
  (exists once, process_text text threshold = Ret once /\
                process_text once threshold = Ret once).
Proof.
  intros Hshort. split; [apply process_text_le, Hshort|].
  exists text. split; apply process_text_le, Hshort.
Qed.

Lemma process_text_short_unchanged_witness :
  len (py "apple") <= TEXT_WRAP_THRESHOLD /\
  process_text (py "apple") TEXT_WRAP_THRESHOLD = Ret (py "apple").
Proof.
  split; [vm_compute; discriminate|].
  apply (process_text_short_unchanged (py "apple") TEXT_WRAP_THRESHOLD).
  vm_compute. discriminate.
Defined.

(** C3, as amended: for a positive threshold, a text strictly longer than
    the threshold is wrapped into consecutive lines of exactly [threshold]
    characters (the last one shorter or equal), joined by a newline and 18
    spaces, and stripping the separators gives the text back. *)
Theorem process_text_wraps (text : pystr) (threshold : Z) :
  0 < threshold -> threshold < len text ->
  length WRAP_SEPARATOR = 19%nat /\
  WRAP_SEPARATOR = 10%N :: repeat 32%N 18 /\
  wraps_into_chunks text threshold.
Proof.
  intros Ht Hlong. split; [reflexivity|]. split; [reflexivity|].
  destruct (range_len_chunks (len text) threshold Ht Hlong)
    as (m & Hn & Hm1 & Hlo & Hhi).
  set (t := Z.to_nat threshold).
  assert (Htt : Z.of_nat t = threshold) by (unfold t; lia).
  unfold len in Hlo, Hhi.
  exists (chunks t m text), (take t (drop (m * t) text)).
  assert (Hfull : Forall (fun l : pystr => length l = t) (chunks t m text)).
  { apply chunks_full. nia. }
  assert (Hcat : concat (chunks t m text ++ [take t (drop (m * t) text)]) = text).
  { rewrite <- chunks_snoc. apply chunks_concat. nia. }
  split; [|split; [|split; [|split]]].
  - rewrite process_text_long, Hn, chunks_snoc by assumption. reflexivity.
  - eapply Forall_impl; [exact Hfull|]. intros l Hl. unfold len. simpl in Hl. lia.
  - unfold len. rewrite length_take, length_drop. nia.
  - exact Hcat.
  - unfold strip_separators. fold t.
    rewrite strip_go_join; [exact Hcat | exact Hfull | rewrite length_take; lia |].
    pose proof (join_length_ge WRAP_SEPARATOR
                  (chunks t m text ++ [take t (drop (m * t) text)])) as Hge.
    rewrite Hcat in Hge.
    assert (length (chunks t m text) = m)
      by (unfold chunks; rewrite length_map, length_seq; reflexivity).
    assert (Z.of_nat m < Z.of_nat (length text)) by nia.
    rewrite H. apply Nat.lt_succ_r. etrans; [|exact Hge]. lia.
Qed.

Lemma process_text_wraps_witness :
  0 < 3 /\ 3 < len (py "词根词缀：ab") /\
  wraps_into_chunks (py "词根词缀：ab") 3.
Proof.
  split; [reflexivity|]. split; [reflexivity|].
  apply (process_text_wraps (py "词根词缀：ab") 3); reflexivity.
Defined.

(** C3 as stated fails for a threshold that is not positive: at threshold 0
    the wrapper raises on any non-empty text, and at a negative threshold it
    returns the empty string. *)
Lemma process_text_wraps_nonpositive_threshold :
  (0 < len (py "a") /\
   process_text (py "a") 0
   = Exc (ValueError (py "range() arg 3 must not be zero")) /\
   ~ wraps_into_chunks (py "a") 0) /\
  (-1 < len (py "a") /\
   process_text (py "a") (-1) = Ret [] /\
   ~ wraps_into_chunks (py "a") (-1)).
Proof.
  split; (split; [reflexivity|]); (split; [reflexivity|]).
  - intros (lines & last & Hrun & _). vm_compute in Hrun. discriminate.
  - intros (lines & last & Hrun & _ & _ & Hcat & _).
    assert (Hneg : process_text (py "a") (-1) = Ret []) by reflexivity.
    rewrite Hneg in Hrun. injection Hrun as Hout. symmetry in Hout.
    pose proof (join_length_ge WRAP_SEPARATOR (lines ++ [last])) as Hge.
    rewrite Hcat, Hout in Hge. vm_compute in Hge. lia.
Qed.

(** ** The loader's records *)

Section Loader.

Implicit Types (headers row : list cell) (d : Row).

Lemma dict_of_pairs_fold pairs :
  dict_of_pairs pairs = fold_left put_pair pairs ∅.
Proof. reflexivity. Qed.

Lemma load_row_from headers row : forall start d,
  fold_left
    (fun (row_dict : Row) '(i, value) =>
       if (i <? length headers)%nat
       then <[dict_key (nth i headers CNone) := load_cell value]> row_dict
       else row_dict)
    (zip (seq start (length row)) row) d
  = fold_left put_pair (zip (drop start headers) (map load_cell row)) d.
Proof.
  induction row as [|value row IH]; intros start d.
  - simpl. destruct (drop start headers); reflexivity.
  - cbn [length seq zip zip_with fold_left map].
    rewrite IH. destruct (Nat.ltb_spec start (length headers)) as [Hin|Hout].
    + destruct (lookup_lt_is_Some_2 headers start Hin) as [h Hh].
      rewrite (drop_S _ _ _ Hh). rewrite nth_lookup, Hh. reflexivity.
    + rewrite !drop_ge by lia. reflexivity.
Qed.

Lemma load_row_zip headers row :
  load_row headers row = dict_of_pairs (zip headers (map load_cell row)).
Proof.
  unfold load_row, enumerate. rewrite load_row_from, drop_0. reflexivity.
Qed.

Lemma fold_pairs_keeps pairs : forall d key,
  is_Some (d !! key) -> is_Some (fold_left put_pair pairs d !! key).
Proof.
  induction pairs as [|[k v] pairs IH]; intros d key Hkey; [exact Hkey|].
  simpl. apply IH. apply lookup_insert_is_Some'. auto.
Qed.

Lemma fold_pairs_absent pairs : forall d key v,
  d !! key = Some v ->
  (forall k' v', (k', v') ∈ pairs -> dict_key k' <> key) ->
  fold_left put_pair pairs d !! key = Some v.
Proof.
  induction pairs as [|[k w] pairs IH]; intros d key v Hd Hfresh; [exact Hd|].
  simpl. apply IH.
  - rewrite lookup_insert_ne; [exact Hd|]. apply (Hfresh k w). left.
  - intros k' v' Hin. apply (Hfresh k' v'). right. exact Hin.
Qed.

Lemma fold_pairs_member pairs d k v :
  (k, v) ∈ pairs -> is_Some (fold_left put_pair pairs d !! dict_key k).
Proof.
  revert d. induction pairs as [|[k' v'] pairs IH]; intros d Hin.
  - inversion Hin.
  - simpl. apply elem_of_cons in Hin as [Heq|Hin].
    + injection Heq as <- <-. apply fold_pairs_keeps.
      rewrite lookup_insert_eq. eauto.
    + apply IH, Hin.
Qed.

Lemma fold_pairs_last before k v after d :
  (forall k' v', (k', v') ∈ after -> dict_key k' <> dict_key k) ->
  fold_left put_pair (before ++ (k, v) :: after) d !! dict_key k = Some v.
Proof.
  intros Hfresh. rewrite fold_left_app. simpl.
  apply fold_pairs_absent; [apply lookup_insert_eq | exact Hfresh].
Qed.

Lemma zip_cells_lookup headers row i h v :
  headers !! i = Some h -> row !! i = Some v ->
  zip headers (map load_cell row) !! i = Some (h, load_cell v).
Proof.
  intros Hh Hv. apply lookup_zip_with_Some.
  exists h, (load_cell v). split; [reflexivity|]. split; [exact Hh|].
  change (map load_cell row) with (load_cell <$> row).
  rewrite list_lookup_fmap, Hv. reflexivity.
Qed.

Lemma load_row_has_key headers row i h v :
  headers !! i = Some h -> row !! i = Some v ->
  is_Some (load_row headers row !! dict_key h).
Proof.
  intros Hh Hv. rewrite load_row_zip, dict_of_pairs_fold.
  apply (fold_pairs_member _ _ h (load_cell v)).
  apply list_elem_of_lookup. exists i. apply zip_cells_lookup; assumption.
Qed.

Lemma load_row_value headers row i h v :
  headers !! i = Some h -> row !! i = Some v ->
  (forall j h', (i < j)%nat -> (j < length row)%nat ->
                headers !! j = Some h' -> dict_key h' <> dict_key h) ->
  load_row headers row !! dict_key h = Some (load_cell v).
Proof.
  intros Hh Hv Hlater. rewrite load_row_zip, dict_of_pairs_fold.
  pose proof (zip_cells_lookup _ _ _ _ _ Hh Hv) as Hi.
  rewrite <- (take_drop_middle _ _ _ Hi).
  apply fold_pairs_last. intros k' v' Hin.
  apply list_elem_of_lookup in Hin as [j Hj].
  rewrite lookup_drop in Hj.
  apply lookup_zip_with_Some in Hj as (h' & w & Heq & Hh' & Hw).
  injection Heq as -> ->.
  apply (Hlater (S i + j)%nat h'); [lia | | exact Hh'].
  apply lookup_lt_Some in Hw. rewrite length_map in Hw. exact Hw.
Qed.

Lemma fold_pairs_values (P : pystr -> Prop) pairs : forall d,
  (forall k v, d !! k = Some v -> P v) ->
  (forall k v, (k, v) ∈ pairs -> P v) ->
  forall k v, fold_left put_pair pairs d !! k = Some v -> P v.
Proof.
  induction pairs as [|[k0 v0] pairs IH]; intros d Hd Hpairs; [exact Hd|].
  simpl. apply IH.
  - intros k v. destruct (decide (dict_key k0 = k)) as [<-|Hne].
    + rewrite lookup_insert_eq. intros [= <-]. apply (Hpairs k0 v0). left.
    + rewrite lookup_insert_ne by exact Hne. apply Hd.
  - intros k v Hin. apply (Hpairs k v). right. exact Hin.
Qed.

(** Every value of a record is the text of a cell of its row. *)
Lemma load_row_xml headers row :
  xml_cells row = true ->
  forall k v, load_row headers row !! k = Some v -> xml_text v = true.
Proof.
  intros Hxml. rewrite load_row_zip, dict_of_pairs_fold.
  apply fold_pairs_values.
  - intros k v. rewrite lookup_empty. discriminate.
  - intros k v Hin. apply list_elem_of_lookup in Hin as [i Hi].
    apply lookup_zip_with_Some in Hi as (h & text & Heq & _ & Htext).
    injection Heq as -> ->.
    change (map load_cell row) with (load_cell <$> row) in Htext.
    rewrite list_lookup_fmap in Htext.
    destruct (row !! i) as [value|] eqn:Hvalue; [|discriminate].
    injection Htext as <-.
    unfold xml_cells in Hxml. rewrite forallb_forall in Hxml.
    apply Hxml, list_elem_of_In. eapply list_elem_of_lookup_2, Hvalue.
Qed.

Lemma load_row_xml_record headers row :
  xml_cells row = true -> xml_record (load_row headers row).
Proof. intros Hxml col v _. apply load_row_xml, Hxml. Qed.

End Loader.

(** C8: the record of a data row is the dict of the header names zipped
    with the row's cell values, [None] read as the empty string and any
    other value as its [str]; a header that has a cell in the row is a key of
    the record, and the cell of the last column under a header name is the
    value, so that an empty cell gives the empty string. *)
Theorem load_row_zips_headers (headers row : list cell) :
  load_row headers row = dict_of_pairs (zip headers (map load_cell row)) /\
  load_cell CNone = [] /\
  (forall value, value <> CNone -> load_cell value = str value) /\
  (forall i h value,
     headers !! i = Some h -> row !! i = Some value ->
     is_Some (load_row headers row !! dict_key h)) /\
  (forall i h value,
     headers !! i = Some h -> row !! i = Some value ->
     (forall j h', (i < j)%nat -> (j < length row)%nat ->
                   headers !! j = Some h' -> dict_key h' <> dict_key h) ->
     load_row headers row !! dict_key h = Some (load_cell value)).
Proof.
  split; [apply load_row_zip|]. split; [reflexivity|].
  split; [intros [] Hv; try reflexivity; congruence|].
  split.
  - intros i h value. apply load_row_has_key.
  - intros i h value. apply load_row_value.
Qed.

Example load_row_sample :
  load_row [CStr (py "英文单词"); CStr (py "单词释义"); CNone; CStr (py "n")]
           [CStr (py "cat"); CNone; CInt 7; CBool true]
  = <[CStr (py "n") := py "True"]>
      (<[CNone := py "7"]>
         (<[CStr (py "单词释义") := []]>
            (<[CStr (py "英文单词") := py "cat"]> ∅))).
Proof. reflexivity. Qed.

Lemma load_row_zips_headers_witness :
  load_row [CStr (py "英文单词"); CStr (py "单词释义")] [CStr (py "cat"); CNone]
    !! CStr (py "单词释义") = Some [].
Proof.
  pose proof (load_row_zips_headers
                [CStr (py "英文单词"); CStr (py "单词释义")]
                [CStr (py "cat"); CNone]) as (_ & _ & _ & _ & Hvalue).
  apply (Hvalue 1%nat (CStr (py "单词释义")) CNone); [reflexivity | reflexivity |].
  intros j h' Hlt Hlen. simpl in Hlen. lia.
Defined.

(** ** Sequencing *)

Global Instance Ret_inj {A} : Inj (=) (=) (@Ret A).
Proof. intros a b Heq. injection Heq as ->. reflexivity. Qed.

Section Sequencing.

Context {A B : Type}.

Lemma bind_Ret (m : M A) (k : A -> M B) tr a tr' :
  m tr = (Ret a, tr') -> bind m k tr = k a tr'.
Proof. intros Hm. unfold bind. rewrite Hm. reflexivity. Qed.

Lemma bind_Exc (m : M A) (k : A -> M B) tr e tr' :
  m tr = (Exc e, tr') -> bind m k tr = (Exc e, tr').
Proof. intros Hm. unfold bind. rewrite Hm. reflexivity. Qed.

End Sequencing.

(** ** Missing columns *)

Section MissingColumns.

Lemma dict_key_str (h : cell) (s : pystr) : dict_key h = CStr s -> h = CStr s.
Proof. destruct h; simpl; congruence. Qed.

Lemma py_in_str (s : pystr) (headers : list cell) :
  py_in (CStr s) headers = true <-> CStr s ∈ headers.
Proof.
  unfold py_in. rewrite existsb_exists. split.
  - intros (h & Hin & Heq). unfold py_eq in Heq.
    apply bool_decide_eq_true in Heq. simpl in Heq. symmetry in Heq.
    apply dict_key_str in Heq. subst h. apply list_elem_of_In, Hin.
  - intros Hin. exists (CStr s). split; [apply list_elem_of_In, Hin|].
    unfold py_eq. apply bool_decide_eq_true. reflexivity.
Qed.

Lemma missing_columns_spec (headers : list cell) (col : pystr) :
  col ∈ missing_columns headers <->
  col ∈ REQUIRED_COLUMNS /\ CStr col ∉ headers.
Proof.
  unfold missing_columns. rewrite list_elem_of_filter.
  rewrite negb_true_iff, <- not_true_iff_false, py_in_str. tauto.
Qed.

Lemma missing_columns_set (headers headers' : list cell) :
  (forall c, c ∈ headers <-> c ∈ headers') ->
  missing_columns headers = missing_columns headers'.
Proof.
  intros Hsame. unfold missing_columns. apply list_filter_iff. intros col.
  rewrite !negb_true_iff, <- !not_true_iff_false, !py_in_str, Hsame. tauto.
Qed.

Variable fs : Files.
Variables (input_file : pystr) (wb : Workbook).
Hypothesis Hload : load_workbook fs input_file = Ret wb.

Lemma load_data_ok tr :
  missing_columns (first_row (active wb)) = [] ->
  load_data fs input_file tr
  = (Ret (load_rows (active wb)), tr ++ [EvLoadWorkbook input_file]).
Proof.
  intros Hnone.
  unfold load_data, open_workbook. run_monad.
  rewrite Hload. run_monad. rewrite Hnone. reflexivity.
Qed.

Lemma load_data_missing tr :
  missing_columns (first_row (active wb)) <> [] ->
  load_data fs input_file tr
  = (Exc (SystemExit 1),
     tr ++ [EvLoadWorkbook input_file;
            EvPrint (py "Excel文件缺少必要的列："
                     ++ join (py ", ") (missing_columns (first_row (active wb))))]).
Proof.
  intros Hsome.
  unfold load_data, open_workbook. run_monad.
  rewrite Hload. run_monad.
  destruct (missing_columns (first_row (active wb))) as [|c cs] eqn:Hm;
    [congruence|].
  rewrite <- app_assoc. reflexivity.
Qed.

Variables (sheet_name : pystr) (ws : Worksheet).
Hypothesis Hsheet : lookup_sheet (sheets wb) sheet_name = Some ws.

Lemma load_data_from_sheet_ok tr :
  missing_columns (first_row ws) = [] ->
  load_data_from_sheet fs input_file sheet_name tr
  = (Ret (load_rows ws), tr ++ [EvLoadWorkbook input_file]).
Proof.
  intros Hnone.
  unfold load_data_from_sheet, open_workbook, get_sheet. run_monad.
  rewrite Hload. run_monad. rewrite Hsheet. run_monad.
  rewrite Hnone. reflexivity.
Qed.

Lemma load_data_from_sheet_missing tr :
  missing_columns (first_row ws) <> [] ->
  load_data_from_sheet fs input_file sheet_name tr
  = (Exc (Exception (py "表格缺少必要的列: "
                     ++ join (py ", ") (missing_columns (first_row ws)))),
     tr ++ [EvLoadWorkbook input_file]).
Proof.
  intros Hsome.
  unfold load_data_from_sheet, open_workbook, get_sheet. run_monad.
  rewrite Hload. run_monad. rewrite Hsheet. run_monad.
  destruct (missing_columns (first_row ws)) as [|c cs] eqn:Hm; [congruence|].
  reflexivity.
Qed.

End MissingColumns.

(** C2: when a required column is absent from the header row, the error
    names exactly the required columns that are absent, whatever the order
    and repetition of the header cells; batch mode prints the list and exits
    with status 1, the sheet-selecting mode raises an exception carrying the
    list; in both the run ends there, with no slide created and no attempt
    to save. *)
Theorem missing_columns_abort (fs : Files) (input_file output_file : option pystr)
    (input output sheet_name : pystr) (wb wb' : Workbook) (ws : Worksheet) :
  missing_columns (first_row ws) <> [] ->
  load_workbook fs (default (py "words.xlsx") input_file) = Ret wb ->
  active wb = ws ->
  load_workbook fs input = Ret wb' ->
  lookup_sheet (sheets wb') sheet_name = Some ws ->
  let missing := missing_columns (first_row ws) in
  let batch_trace :=
    [EvLoadWorkbook (default (py "words.xlsx") input_file);
     EvPrint (py "Excel文件缺少必要的列：" ++ join (py ", ") missing)] in
  let sheet_error :=
    Exception (py "表格缺少必要的列: " ++ join (py ", ") missing) in
  (forall col, col ∈ missing <-> col ∈ REQUIRED_COLUMNS /\ CStr col ∉ first_row ws) /\
  (forall headers', (forall c, c ∈ first_row ws <-> c ∈ headers') ->
                    missing_columns headers' = missing) /\
  run (load_data fs (default (py "words.xlsx") input_file))
  = (Exc (SystemExit 1), batch_trace) /\
  run (generate_ppt fs input_file output_file)
  = (Exc (SystemExit 1), batch_trace) /\
  run (load_data_from_sheet fs input sheet_name)
  = (Exc sheet_error, [EvLoadWorkbook input]) /\
  run (generate_ppt_from_sheet fs input output sheet_name)
  = (Exc sheet_error, [EvLoadWorkbook input]) /\
  slides_added batch_trace = 0%nat /\ saves batch_trace = [] /\
  slides_added [EvLoadWorkbook input] = 0%nat /\ saves [EvLoadWorkbook input] = [].
Proof.
  intros Hmissing Hload Hactive Hload' Hsheet missing batch_trace sheet_error.
  subst ws.
  pose proof (load_data_missing fs _ wb Hload [] Hmissing) as Hbatch.
  pose proof (load_data_from_sheet_missing fs _ wb' Hload' _ _ Hsheet []
                Hmissing) as Hfrom.
  split; [apply missing_columns_spec|].
  split; [intros headers' Hsame; symmetry; apply missing_columns_set, Hsame|].
  split; [exact Hbatch|].
  split; [unfold run, generate_ppt; apply bind_Exc; exact Hbatch|].
  split; [exact Hfrom|].
  split; [unfold run, generate_ppt_from_sheet; apply bind_Exc; exact Hfrom|].
  repeat split.
Qed.

Lemma missing_columns_abort_witness :
  run (generate_ppt Template.fs_no_definition None None)
  = (Exc (SystemExit 1),
     [EvLoadWorkbook (py "words.xlsx");
      EvPrint (py "Excel文件缺少必要的列：单词释义")]) /\
  run (generate_ppt_from_sheet Template.fs_no_definition (py "words.xlsx")
         (py "out.pptx") (py "单词表"))
  = (Exc (Exception (py "表格缺少必要的列: 单词释义")),
     [EvLoadWorkbook (py "words.xlsx")]).
Proof.
  assert (Hmissing : missing_columns (first_row Template.ws_no_definition) <> [])
    by (vm_compute; discriminate).
  destruct (missing_columns_abort Template.fs_no_definition None None
              (py "words.xlsx") (py "out.pptx") (py "单词表")
              Template.wb_no_definition Template.wb_no_definition
              Template.ws_no_definition Hmissing eq_refl eq_refl eq_refl
              eq_refl)
    as (_ & _ & _ & Hbatch & _ & Hsheet & _).
  split; [exact Hbatch | exact Hsheet].
Defined.

(** ** The slide of a record *)

Section SlideLayout.

Lemma wrapped_default (field : pystr) tr :
  wrapped field tr = (Ret (wrap_default field), tr).
Proof.
  unfold wrapped, lift, wrap_default.
  destruct (process_text_default field) as [processed ->]. reflexivity.
Qed.

Lemma process_text_wrap_default (field : pystr) :
  process_text field TEXT_WRAP_THRESHOLD = Ret (wrap_default field).
Proof.
  unfold wrap_default.
  destruct (process_text_default field) as [processed ->]. reflexivity.
Qed.

Lemma xml_text_app (a b : pystr) :
  xml_text (a ++ b) = xml_text a && xml_text b.
Proof. apply forallb_app. Qed.

Lemma xml_text_join (sep : pystr) (ls : list pystr) :
  xml_text sep = true -> xml_text (join sep ls) = xml_text (concat ls).
Proof.
  intros Hsep. induction ls as [|l ls IH]; [reflexivity|].
  destruct ls as [|l' ls].
  - simpl. rewrite app_nil_r. reflexivity.
  - rewrite join_cons by discriminate.
    change (concat (l :: l' :: ls)) with (l ++ concat (l' :: ls)).
    rewrite !xml_text_app, Hsep, IH. reflexivity.
Qed.

(** Wrapping moves no character and adds only newlines and spaces. *)
Lemma xml_text_wrap_default (field : pystr) :
  xml_text (wrap_default field) = xml_text field.
Proof.
  unfold wrap_default.
  destruct (Z.le_gt_cases (len field) TEXT_WRAP_THRESHOLD) as [Hshort|Hlong].
  - rewrite process_text_le by exact Hshort. reflexivity.
  - assert (Ht : 0 < TEXT_WRAP_THRESHOLD) by reflexivity.
    rewrite process_text_long by assumption.
    rewrite xml_text_join by reflexivity.
    destruct (range_len_chunks (len field) TEXT_WRAP_THRESHOLD Ht Hlong)
      as (m & -> & _ & _ & Hhi).
    rewrite chunks_concat; [reflexivity|]. unfold len in Hhi.
    change TEXT_WRAP_THRESHOLD with 40 in *. lia.
Qed.

Lemma assign_text_run (s : pystr) tr :
  assign_text s tr
  = (if xml_text s then Ret s else Exc (ValueError XML_ERROR), tr).
Proof. unfold assign_text. destruct (xml_text s); reflexivity. Qed.

Lemma add_word_textbox_run slide l t w h word tr :
  add_word_textbox slide l t w h word tr
  = (if xml_text word
     then Ret (add_textbox slide l t w h
                 (set_auto_size
                    (add_paragraph new_text_frame
                       {| alignment := Some CENTER;
                          font_size := Some WORD_FONT_SIZE; text := word |})
                    TEXT_TO_FIT_SHAPE))
     else Exc (ValueError XML_ERROR), tr).
Proof.
  unfold add_word_textbox. run_monad. rewrite assign_text_run.
  destruct (xml_text word); reflexivity.
Qed.

Lemma add_phonetic_textbox_run slide l t w h phonetic tr :
  add_phonetic_textbox slide l t w h phonetic tr
  = (if xml_text phonetic
     then Ret (add_textbox slide l t w h
                 (set_auto_size
                    (add_paragraph new_text_frame
                       {| alignment := Some CENTER;
                          font_size := Some PHONETIC_FONT_SIZE;
                          text := phonetic |})
                    TEXT_TO_FIT_SHAPE))
     else Exc (ValueError XML_ERROR), tr).
Proof.
  unfold add_phonetic_textbox. run_monad. rewrite assign_text_run.
  destruct (xml_text phonetic); reflexivity.
Qed.

Lemma add_morphology_textbox_run slide l t w h morphology tr :
  add_morphology_textbox slide l t w h morphology tr
  = (if xml_text morphology
     then Ret (add_textbox slide l t w h
                 (add_paragraph
                    (set_word_wrap
                       (set_auto_size new_text_frame TEXT_TO_FIT_SHAPE) true)
                    {| alignment := Some LEFT;
                       font_size := Some CONTENT_FONT_SIZE;
                       text := py "词根词缀：" ++ wrap_default morphology |}))
     else Exc (ValueError XML_ERROR), tr).
Proof.
  unfold add_morphology_textbox. run_monad.
  rewrite wrapped_default, assign_text_run.
  rewrite xml_text_app, xml_text_wrap_default.
  change (xml_text (py "词根词缀：")) with true. cbn [andb].
  destruct (xml_text morphology); reflexivity.
Qed.

Lemma add_example_textbox_run slide l t w h example example_def tr :
  add_example_textbox slide l t w h example example_def tr
  = (if xml_text example && xml_text example_def
     then Ret (add_textbox slide l t w h
                 (add_paragraph
                    (set_word_wrap
                       (set_auto_size new_text_frame TEXT_TO_FIT_SHAPE) true)
                    {| alignment := Some LEFT;
                       font_size := Some CONTENT_FONT_SIZE;
                       text := py "例句：" ++ wrap_default example
                               ++ py (String (ascii_of_nat 10) "例句释义：")
                               ++ wrap_default example_def |}))
     else Exc (ValueError XML_ERROR), tr).
Proof.
  unfold add_example_textbox. run_monad.
  rewrite !wrapped_default. run_monad.
  rewrite assign_text_run.
  rewrite !xml_text_app, !xml_text_wrap_default.
  change (xml_text (py "例句：")) with true.
  change (xml_text (py (String (ascii_of_nat 10) "例句释义："))) with true.
  cbn [andb].
  destruct (xml_text example && xml_text example_def); reflexivity.
Qed.

Lemma add_word_def_textbox_run slide l t w h word_def tr :
  add_word_def_textbox slide l t w h word_def tr
  = (if xml_text word_def
     then Ret (add_textbox slide l t w h
                 (add_paragraph
                    (set_auto_size new_text_frame SHAPE_TO_FIT_TEXT)
                    {| alignment := Some LEFT;
                       font_size := Some CONTENT_FONT_SIZE;
                       text := py "单词释义：" ++ wrap_default word_def |}))
     else Exc (ValueError XML_ERROR), tr).
Proof.
  unfold add_word_def_textbox. run_monad.
  rewrite wrapped_default, assign_text_run.
  rewrite xml_text_app, xml_text_wrap_default.
  change (xml_text (py "单词释义：")) with true. cbn [andb].
  destruct (xml_text word_def); reflexivity.
Qed.

End SlideLayout.

(** One step of [generate_slide]: the plumbing is run, the text boxes are
    replaced by their results, and what is known of the record is used. *)
Ltac slide_step :=
  run_monad; cbn [truthy];
  rewrite ?add_word_textbox_run, ?add_phonetic_textbox_run,
    ?add_morphology_textbox_run, ?add_example_textbox_run,
    ?add_word_def_textbox_run;
  repeat match goal with H : _ = _ |- _ => rewrite H end.

Section SlideCases.

Lemma generate_slide_cases ppt row tr :
  generate_slide ppt row tr
  = (match slide_failure row with
     | Some e => Exc e
     | None => Ret (with_slide ppt (slide_of_row row))
     end, tr ++ [EvAddSlide]).
Proof.
  unfold slide_failure, field_failure, text_failure.
  unfold with_slide, slide_of_row, field.
  unfold generate_slide, getitem.
  destruct (row !! CStr (py "英文单词")) as [w|] eqn:Hw;
    [|repeat slide_step; reflexivity].
  destruct (xml_text w) eqn:Hxw; [|repeat slide_step; reflexivity].
  destruct (row !! CStr (py "英文音标")) as [p|] eqn:Hp;
    [|repeat slide_step; reflexivity].
  destruct (xml_text p) eqn:Hxp; [|repeat slide_step; reflexivity].
  destruct (row !! CStr (py "词根词缀")) as [m|] eqn:Hm;
    [|repeat slide_step; reflexivity].
  destruct (xml_text m) eqn:Hxm; [|repeat slide_step; reflexivity].
  destruct (row !! CStr (py "例句")) as [e|] eqn:He;
    [|repeat slide_step; reflexivity].
  destruct (row !! CStr (py "例句释义")) as [ed|] eqn:Hed;
    [|repeat slide_step; reflexivity].
  destruct (xml_text e && xml_text ed) eqn:Hxe;
    [|repeat slide_step; reflexivity].
  destruct (row !! CStr (py "单词释义")) as [wd|] eqn:Hwd;
    [|repeat slide_step; reflexivity].
  destruct wd as [|c wd]; [repeat slide_step; reflexivity|].
  cbn [truthy negb orb].
  destruct (xml_text (c :: wd)) eqn:Hxwd; repeat slide_step; reflexivity.
Qed.

Lemma generate_slide_table ppt row w p m e ed wd tr :
  has_fields row w p m e ed wd -> xml_record row ->
  generate_slide ppt row tr
  = (Ret {| slide_width := slide_width ppt; slide_height := slide_height ppt;
            slides := slides ppt ++ [table_slide w p m e ed wd] |},
     tr ++ [EvAddSlide]).
Proof.
  intros (Hw & Hp & Hm & He & Hed & Hwd) Hxml.
  assert (Hx : forall col v, In col REQUIRED_COLUMNS ->
                 row !! CStr col = Some v -> xml_text v = true).
  { intros col v Hcol. apply Hxml, list_elem_of_In, Hcol. }
  assert (Hxw : xml_text w = true)
    by (eapply Hx; [|exact Hw]; cbn [In REQUIRED_COLUMNS]; auto 10).
  assert (Hxp : xml_text p = true)
    by (eapply Hx; [|exact Hp]; cbn [In REQUIRED_COLUMNS]; auto 10).
  assert (Hxm : xml_text m = true)
    by (eapply Hx; [|exact Hm]; cbn [In REQUIRED_COLUMNS]; auto 10).
  assert (Hxe : xml_text e = true)
    by (eapply Hx; [|exact He]; cbn [In REQUIRED_COLUMNS]; auto 10).
  assert (Hxed : xml_text ed = true)
    by (eapply Hx; [|exact Hed]; cbn [In REQUIRED_COLUMNS]; auto 10).
  assert (Hxwd : xml_text wd = true)
    by (eapply Hx; [|exact Hwd]; cbn [In REQUIRED_COLUMNS]; auto 10).
  clear Hx.
  rewrite generate_slide_cases.
  unfold slide_failure, field_failure, text_failure.
  unfold with_slide, slide_of_row, field, pystr in *.
  rewrite Hw, Hp, Hm, He, Hed, Hwd, Hxw, Hxp, Hxm, Hxe, Hxed, Hxwd.
  rewrite orb_true_r. reflexivity.
Qed.

End SlideCases.

Example template_apple_fields :
  has_fields (load_row Template.headers (hd [] Template.example_data))
    (py "apple") (py "/ˈæpl/") (py "a-pple") (py "I eat an apple every day.")
    (py "我每天吃一个苹果。") (py "苹果").
Proof. repeat split; reflexivity. Qed.

Example template_apple_xml :
  xml_record (load_row Template.headers (hd [] Template.example_data)).
Proof. apply load_row_xml_record. reflexivity. Qed.

Example template_run :
  exists ppt tr,
    run (generate_ppt Template.fs None None) = (Ret 5, tr) /\
    saves tr = [(py "words.pptx", ppt, true)] /\
    length (slides ppt) = 5%nat /\
    (region_text <$> (slides ppt !! 0%nat ≫= head)) = Some (py "apple").
Proof. eexists _, _. vm_compute. repeat split; reflexivity. Qed.

Section SlideClaims.

Variables (row : Row) (w p m e ed wd : pystr).
Hypothesis Hfields : has_fields row w p m e ed wd.
Hypothesis Hxml : xml_record row.

Lemma builds_table_slide : builds row (table_slide w p m e ed wd).
Proof. intros ppt tr. apply generate_slide_table; [exact Hfields | exact Hxml]. Qed.

(** C7: the slide of a record whose six fields are text that XML can hold
    (the text assignment raises ValueError on any other) has its regions at
    the rectangles, sizes and alignments of the layout table (in tenths of
    an inch and in points), the example region holding the wrapped example
    and the wrapped translation as two labelled lines. *)
Theorem slide_regions_geometry :
  tenth_inches 10 = Inches (PyInt 1) /\ points 1 = Pt (PyInt 1) /\
  (forall field,
     process_text field TEXT_WRAP_THRESHOLD = Ret (wrap_default field)) /\
  builds row
    ([region 40 10 80 20 TEXT_TO_FIT_SHAPE None 72 CENTER w;
      region 70 24 20 10 TEXT_TO_FIT_SHAPE None 32 CENTER p;
      region 20 40 120 20 TEXT_TO_FIT_SHAPE (Some true) 32 LEFT
        (py "词根词缀：" ++ wrap_default m);
      region 20 54 120 30 TEXT_TO_FIT_SHAPE (Some true) 32 LEFT
        (py "例句：" ++ wrap_default e
         ++ [10%N] ++ py "例句释义：" ++ wrap_default ed)]
     ++ (if truthy wd
         then [region 20 30 80 15 SHAPE_TO_FIT_TEXT None 32 LEFT
                 (py "单词释义：" ++ wrap_default wd)]
         else [])).
Proof.
  split; [reflexivity|]. split; [reflexivity|].
  split; [apply process_text_wrap_default|].
  exact builds_table_slide.
Qed.

(** C5: the slide of a record whose six fields are text that XML can hold
    (the text assignment raises ValueError on any other) always starts with
    the four fixed regions, and has a region at the definition rectangle
    exactly when the record's '单词释义' field is not the empty string; that
    region, when present, is the only other shape. *)
Theorem definition_region_iff_nonempty :
  exists slide,
    builds row slide /\
    take 4 slide = fixed_regions w p m e ed /\
    ((exists tb, tb ∈ slide /\ at_definition_rectangle tb) <-> wd <> []) /\
    (wd <> [] -> drop 4 slide = [definition_region wd]) /\
    (wd = [] -> drop 4 slide = []).
Proof.
  exists (table_slide w p m e ed wd).
  split; [exact builds_table_slide|].
  split; [reflexivity|].
  split; [|split].
  - split.
    + intros (tb & Hin & _ & Htop & _) ->.
      unfold table_slide, fixed_regions in Hin. cbn [truthy] in Hin.
      rewrite app_nil_r in Hin.
      repeat (apply elem_of_cons in Hin as [->|Hin];
              [vm_compute in Htop; discriminate|]).
      inversion Hin.
    + intros Hwd. exists (definition_region wd). split.
      * unfold table_slide. destruct wd; [congruence|].
        apply elem_of_app. right. left.
      * repeat split.
  - intros Hwd. unfold table_slide. destruct wd; [congruence | reflexivity].
  - intros ->. reflexivity.
Qed.

End SlideClaims.

Lemma slide_regions_geometry_witness :
  builds (load_row Template.headers (hd [] Template.example_data))
    [region 40 10 80 20 TEXT_TO_FIT_SHAPE None 72 CENTER (py "apple");
     region 70 24 20 10 TEXT_TO_FIT_SHAPE None 32 CENTER (py "/ˈæpl/");
     region 20 40 120 20 TEXT_TO_FIT_SHAPE (Some true) 32 LEFT
       (py "词根词缀：a-pple");
     region 20 54 120 30 TEXT_TO_FIT_SHAPE (Some true) 32 LEFT
       (py "例句：I eat an apple every day."
        ++ [10%N] ++ py "例句释义：我每天吃一个苹果。");
     region 20 30 80 15 SHAPE_TO_FIT_TEXT None 32 LEFT (py "单词释义：苹果")].
Proof.
  exact (proj2 (proj2 (proj2
    (slide_regions_geometry _ _ _ _ _ _ _
       template_apple_fields template_apple_xml)))).
Defined.

Lemma definition_region_iff_nonempty_witness :
  exists slide,
    builds (load_row Template.headers (hd [] Template.example_data)) slide /\
    drop 4 slide = [definition_region (py "苹果")].
Proof.
  destruct (definition_region_iff_nonempty _ _ _ _ _ _ _
              template_apple_fields template_apple_xml)
    as (slide & Hbuilds & _ & _ & Hdef & _).
  exists slide. split; [exact Hbuilds|]. apply Hdef. discriminate.
Defined.

Section Labels.

Lemma first_line_no_newline (s : pystr) : 10%N ∉ s -> first_line s = s.
Proof.
  induction s as [|c s IH]; intros Hno; [reflexivity|].
  simpl. destruct (N.eqb_spec c 10) as [->|_].
  - exfalso. apply Hno. left.
  - f_equal. apply IH. intros Hin. apply Hno. right. exact Hin.
Qed.

Variables (row : Row) (w p m e ed wd : pystr).
Hypothesis Hfields : has_fields row w p m e ed wd.
Hypothesis Hxml : xml_record row.

(** C9: on a record whose six fields are text that XML can hold (the text
    assignment raises ValueError on any other), the text of each labelled
    region is the label followed by the wrapper's result on the field value
    alone, so the label's characters do not count toward the threshold: a
    field of exactly 40 characters is not wrapped, and its line is longer
    than 40 by the label's length. *)
Theorem labels_outside_threshold :
  exists pm pe ped pwd slide,
    process_text m TEXT_WRAP_THRESHOLD = Ret pm /\
    process_text e TEXT_WRAP_THRESHOLD = Ret pe /\
    process_text ed TEXT_WRAP_THRESHOLD = Ret ped /\
    process_text wd TEXT_WRAP_THRESHOLD = Ret pwd /\
    builds row slide /\
    map region_text slide
    = [w; p; py "词根词缀：" ++ pm;
       py "例句：" ++ pe ++ [10%N] ++ py "例句释义：" ++ ped]
      ++ (if truthy wd then [py "单词释义：" ++ pwd] else []) /\
    (forall label field,
       len field = TEXT_WRAP_THRESHOLD -> 10%N ∉ label ++ field ->
       process_text field TEXT_WRAP_THRESHOLD = Ret field /\
       first_line (label ++ field) = label ++ field /\
       len (first_line (label ++ field)) = len label + TEXT_WRAP_THRESHOLD).
Proof.
  exists (wrap_default m), (wrap_default e), (wrap_default ed),
    (wrap_default wd), (table_slide w p m e ed wd).
  repeat (split; [apply process_text_wrap_default|]).
  split; [apply builds_table_slide; [exact Hfields | exact Hxml]|].
  split.
  - unfold table_slide. destruct wd; reflexivity.
  - intros label field Hlen Hno.
    split; [apply process_text_le; lia|].
    rewrite first_line_no_newline by exact Hno.
    split; [reflexivity|]. unfold len in *. rewrite length_app. lia.
Qed.

End Labels.

Lemma labels_outside_threshold_witness :
  exists slide,
    builds (load_row Template.headers (hd [] Template.example_data)) slide /\
    map region_text slide
    = [py "apple"; py "/ˈæpl/"; py "词根词缀：a-pple";
       py "例句：I eat an apple every day."
       ++ [10%N] ++ py "例句释义：我每天吃一个苹果。";
       py "单词释义：苹果"].
Proof.
  destruct (labels_outside_threshold _ _ _ _ _ _ _
              template_apple_fields template_apple_xml)
    as (pm & pe & ped & pwd & slide & Hm & He & Hed & Hwd & Hb & Htext & _).
  exists slide. split; [exact Hb|].
  rewrite Htext.
  assert (pm = py "a-pple") as -> by (apply (inj Ret); rewrite <- Hm; reflexivity).
  assert (pe = py "I eat an apple every day.") as ->
    by (apply (inj Ret); rewrite <- He; reflexivity).
  assert (ped = py "我每天吃一个苹果。") as ->
    by (apply (inj Ret); rewrite <- Hed; reflexivity).
  assert (pwd = py "苹果") as ->
    by (apply (inj Ret); rewrite <- Hwd; reflexivity).
  reflexivity.
Defined.

(** ** The deck of a worksheet *)

Section Deck.

Lemma saves_app tr tr' : saves (tr ++ tr') = saves tr ++ saves tr'.
Proof.
  induction tr as [|ev tr IH]; [reflexivity|].
  destruct ev; simpl; rewrite IH; reflexivity.
Qed.

Lemma slides_added_app tr tr' :
  slides_added (tr ++ tr') = (slides_added tr + slides_added tr')%nat.
Proof.
  induction tr as [|ev tr IH]; [reflexivity|].
  destruct ev; simpl; rewrite IH; reflexivity.
Qed.

Lemma required_columns_cases (P : pystr -> Prop) :
  (forall col, col ∈ REQUIRED_COLUMNS -> P col) ->
  P (py "英文单词") /\ P (py "英文音标") /\ P (py "词根词缀") /\
  P (py "例句") /\ P (py "例句释义") /\ P (py "单词释义").
Proof.
  intros Hall. unfold REQUIRED_COLUMNS in Hall.
  repeat split; apply Hall; repeat first [left | right].
Qed.

Lemma complete_has_fields (row : Row) :
  complete row ->
  has_fields row (field row (py "英文单词")) (field row (py "英文音标"))
    (field row (py "词根词缀")) (field row (py "例句"))
    (field row (py "例句释义")) (field row (py "单词释义")).
Proof.
  intros Hrow.
  destruct (required_columns_cases _ Hrow)
    as ([? H1] & [? H2] & [? H3] & [? H4] & [? H5] & [? H6]).
  unfold has_fields, field, pystr in *.
  rewrite H1, H2, H3, H4, H5, H6. repeat split.
Qed.

Lemma ready_builds (row : Row) :
  ready row -> builds row (slide_of_row row).
Proof.
  intros [Hrow Hxml] ppt tr.
  apply generate_slide_table; [apply complete_has_fields, Hrow | exact Hxml].
Qed.

Lemma load_row_complete (headers row : list cell) :
  missing_columns headers = [] ->
  length row = length headers ->
  complete (load_row headers row).
Proof.
  intros Hnone Hwide col Hreq.
  assert (Hin : CStr col ∈ headers).
  { destruct (decide (CStr col ∈ headers)) as [Hin|Hout]; [exact Hin|].
    assert (Hmiss : col ∈ missing_columns headers)
      by (apply missing_columns_spec; split; assumption).
    rewrite Hnone in Hmiss. inversion Hmiss. }
  apply list_elem_of_lookup in Hin as [i Hi].
  assert (Hlt : (i < length row)%nat)
    by (rewrite Hwide; eapply lookup_lt_Some; exact Hi).
  destruct (lookup_lt_is_Some_2 row i Hlt) as [value Hvalue].
  exact (load_row_has_key headers row i (CStr col) value Hi Hvalue).
Qed.

Lemma load_rows_complete (ws : Worksheet) :
  missing_columns (first_row ws) = [] -> rectangular ws ->
  Forall complete (load_rows ws).
Proof.
  intros Hnone Hrect. unfold load_rows. apply Forall_map.
  eapply Forall_impl; [exact Hrect|].
  intros row Hwide. apply load_row_complete; assumption.
Qed.

Lemma load_rows_xml (ws : Worksheet) :
  xml_sheet ws = true -> Forall xml_record (load_rows ws).
Proof.
  intros Hxml. apply andb_prop in Hxml as [_ Hrows].
  rewrite forallb_forall in Hrows.
  unfold load_rows. apply Forall_map, Forall_forall.
  intros row Hin. apply load_row_xml_record, Hrows, list_elem_of_In, Hin.
Qed.

Lemma xml_sheet_row (ws : Worksheet) (row : list cell) :
  xml_sheet ws = true -> row ∈ rows_from_2 ws -> xml_cells row = true.
Proof.
  intros Hxml Hin. apply andb_prop in Hxml as [_ Hrows].
  rewrite forallb_forall in Hrows. apply Hrows, list_elem_of_In, Hin.
Qed.

Lemma xml_workbook_active (wb : Workbook) :
  xml_workbook wb = true -> xml_sheet (active wb) = true.
Proof. intros Hxml. apply andb_prop in Hxml as [Hactive _]. exact Hactive. Qed.

Lemma lookup_sheet_member sheets name ws :
  lookup_sheet sheets name = Some ws -> exists n, In (n, ws) sheets.
Proof.
  induction sheets as [|[n ws'] rest IH]; [discriminate|].
  simpl. destruct (bool_decide (n = name)).
  - intros [= ->]. exists n. left. reflexivity.
  - intros Hrest. destruct (IH Hrest) as [n' Hin]. exists n'. right. exact Hin.
Qed.

Lemma xml_workbook_sheet (wb : Workbook) name ws :
  xml_workbook wb = true -> lookup_sheet (sheets wb) name = Some ws ->
  xml_sheet ws = true.
Proof.
  intros Hxml Hsheet. apply andb_prop in Hxml as [_ Hsheets].
  rewrite forallb_forall in Hsheets.
  destruct (lookup_sheet_member _ _ _ Hsheet) as [n Hin].
  exact (Hsheets _ Hin).
Qed.

Lemma load_rows_ready (ws : Worksheet) :
  missing_columns (first_row ws) = [] -> rectangular ws ->
  xml_sheet ws = true ->
  Forall ready (load_rows ws).
Proof.
  intros Hnone Hrect Hxml.
  pose proof (load_rows_complete ws Hnone Hrect) as Hcomplete.
  pose proof (load_rows_xml ws Hxml) as Htext.
  rewrite Forall_forall in Hcomplete, Htext. apply Forall_forall.
  intros row Hin. split; [apply Hcomplete | apply Htext]; exact Hin.
Qed.

End Deck.

(** ** The runs of the two entry points *)

Section Runs.

Lemma generate_slide_adds_one :
  adds_one_slide (fun '(index, row) ppt => generate_slide ppt row).
Proof.
  intros i row ppt tr Hrow. exists (tr ++ [EvAddSlide]).
  split; [apply ready_builds, Hrow|].
  rewrite saves_app, slides_added_app. simpl.
  split; [apply app_nil_r | lia].
Qed.

Lemma generate_ppt_step_adds_one word_count :
  adds_one_slide (generate_ppt_step word_count).
Proof.
  intros i row ppt tr Hrow. unfold generate_ppt_step.
  destruct (((Z.of_nat i + 1) mod 10 =? 0) || (Z.of_nat i + 1 =? word_count));
    run_monad.
  - eexists. split; [apply ready_builds, Hrow|].
    rewrite !saves_app, !slides_added_app. simpl.
    split; [rewrite !app_nil_r; reflexivity | lia].
  - eexists. split; [apply ready_builds, Hrow|].
    rewrite !saves_app, !slides_added_app. simpl.
    split; [rewrite !app_nil_r; reflexivity | lia].
Qed.

Lemma for_each_slides body :
  adds_one_slide body ->
  forall (items : list (nat * Row)) ppt tr,
    Forall ready items.*2 ->
    exists tr',
      for_each items body ppt tr
      = (Ret {| slide_width := slide_width ppt;
                slide_height := slide_height ppt;
                slides := slides ppt ++ map slide_of_row items.*2 |}, tr') /\
      saves tr' = saves tr /\
      slides_added tr' = (slides_added tr + length items)%nat.
Proof.
  intros Hbody items.
  induction items as [|[i row] items IH]; intros ppt tr Hrows.
  - exists tr. simpl. rewrite app_nil_r. destruct ppt.
    split; [reflexivity|]. split; [reflexivity | lia].
  - simpl in Hrows. inversion Hrows as [|? ? Hrow Hrest]; subst.
    destruct (Hbody i row ppt tr Hrow) as (tr1 & Hstep & Hsaves1 & Hadded1).
    destruct (IH (with_slide ppt (slide_of_row row)) tr1 Hrest)
      as (tr2 & Hloop & Hsaves2 & Hadded2).
    exists tr2. cbn [for_each]. rewrite (bind_Ret _ _ _ _ _ Hstep), Hloop.
    split; [|split; [congruence | simpl; lia]].
    simpl. rewrite <- app_assoc. reflexivity.
Qed.

Lemma enumerate_rows (data : list Row) : (enumerate data).*2 = data.
Proof. unfold enumerate. apply snd_zip. rewrite length_seq. reflexivity. Qed.

Lemma enumerate_length {A} (data : list A) :
  length (enumerate data) = length data.
Proof.
  unfold enumerate. rewrite length_zip_with, length_seq. lia.
Qed.

End Runs.

Section EntryPoints.

Variable fs : Files.
Variables (wb : Workbook) (ws : Worksheet).
Hypothesis Hcolumns : missing_columns (first_row ws) = [].
Hypothesis Hrect : rectangular ws.

(** What [load_workbook] serves holds only text that XML can hold. *)
Lemma served_active_xml path :
  load_workbook fs path = Ret wb -> active wb = ws -> xml_sheet ws = true.
Proof.
  intros Hload Hactive. rewrite <- Hactive.
  apply xml_workbook_active, (load_workbook_xml fs path), Hload.
Qed.

Lemma served_sheet_xml path name :
  load_workbook fs path = Ret wb -> lookup_sheet (sheets wb) name = Some ws ->
  xml_sheet ws = true.
Proof.
  intros Hload Hsheet.
  eapply xml_workbook_sheet; [|exact Hsheet].
  apply (load_workbook_xml fs path), Hload.
Qed.

Lemma load_rows_length : len (load_rows ws) = len (rows_from_2 ws).
Proof. unfold len, load_rows. rewrite length_map. reflexivity. Qed.

Lemma generate_ppt_run (input_file output_file : option pystr) :
  load_workbook fs (default (py "words.xlsx") input_file) = Ret wb ->
  active wb = ws ->
  exists tr0,
    saves tr0 = [] /\ slides_added tr0 = length (rows_from_2 ws) /\
    run (generate_ppt fs input_file output_file)
    = (fst (batch_end fs ws (default (py "words.pptx") output_file)),
       tr0 ++ snd (batch_end fs ws (default (py "words.pptx") output_file))).
Proof.
  intros Hload Hactive.
  pose proof (load_data_ok fs _ wb Hload []) as Hdata.
  rewrite Hactive in Hdata. specialize (Hdata Hcolumns).
  unfold run, generate_ppt.
  rewrite (bind_Ret _ _ _ _ _ Hdata).
  unfold create_presentation. run_monad.
  match goal with
  | |- context [for_each ?items ?body ?ppt ?tr] =>
      destruct (for_each_slides body
                  (generate_ppt_step_adds_one _) items ppt tr)
        as (tr1 & Hloop & Hsaves & Hadded);
      [rewrite enumerate_rows; apply load_rows_ready;
       [assumption | assumption | eapply served_active_xml; eassumption]|]
  end.
  rewrite Hloop. rewrite enumerate_rows in Hloop |- *.
  rewrite enumerate_length in Hadded.
  exists tr1. split; [rewrite Hsaves; reflexivity|].
  split; [rewrite Hadded; unfold load_rows; rewrite length_map; reflexivity|].
  unfold batch_end, built, deck, save. rewrite load_rows_length.
  destruct (save_error fs (default (py "words.pptx") output_file)) as [e|].
  - run_monad. destruct e; cbn [fst snd]; rewrite <- ?app_assoc; reflexivity.
  - run_monad. cbn [fst snd]. rewrite <- !app_assoc. reflexivity.
Qed.

Lemma generate_ppt_from_sheet_run (input output sheet_name : pystr) :
  load_workbook fs input = Ret wb ->
  lookup_sheet (sheets wb) sheet_name = Some ws ->
  exists tr0,
    saves tr0 = [] /\ slides_added tr0 = length (rows_from_2 ws) /\
    run (generate_ppt_from_sheet fs input output sheet_name)
    = (fst (sheet_end fs ws output), tr0 ++ snd (sheet_end fs ws output)).
Proof.
  intros Hload Hsheet.
  unfold run, generate_ppt_from_sheet.
  rewrite (bind_Ret _ _ _ _ _
             (load_data_from_sheet_ok fs _ wb Hload _ _ Hsheet [] Hcolumns)).
  unfold create_presentation. run_monad.
  match goal with
  | |- context [for_each ?items ?body ?ppt ?tr] =>
      destruct (for_each_slides body generate_slide_adds_one items ppt tr)
        as (tr1 & Hloop & Hsaves & Hadded);
      [rewrite enumerate_rows; apply load_rows_ready;
       [assumption | assumption | eapply served_sheet_xml; eassumption]|]
  end.
  rewrite Hloop. rewrite enumerate_rows in Hloop |- *.
  rewrite enumerate_length in Hadded.
  exists tr1. split; [rewrite Hsaves; reflexivity|].
  split; [rewrite Hadded; unfold load_rows; rewrite length_map; reflexivity|].
  unfold sheet_end, built, deck, save. rewrite load_rows_length.
  destruct (save_error fs output) as [e|].
  - run_monad. destruct e; cbn [fst snd]; rewrite <- ?app_assoc; reflexivity.
  - run_monad. cbn [fst snd]. reflexivity.
Qed.

End EntryPoints.

Section EntryPointClaims.

Lemma batch_end_trace fs ws output :
  saves (snd (batch_end fs ws output)) = [(output, built ws, writable fs output)] /\
  slides_added (snd (batch_end fs ws output)) = 0%nat.
Proof.
  unfold batch_end, writable.
  destruct (save_error fs output) as [e|]; [destruct (is_Exception e)|];
    split; reflexivity.
Qed.

Lemma sheet_end_trace fs ws output :
  saves (snd (sheet_end fs ws output)) = [(output, built ws, writable fs output)] /\
  slides_added (snd (sheet_end fs ws output)) = 0%nat.
Proof.
  unfold sheet_end, writable.
  destruct (save_error fs output) as [e|]; [destruct (is_Exception e)|];
    split; reflexivity.
Qed.

Lemma built_slides ws :
  length (slides (built ws)) = length (rows_from_2 ws) /\
  forall N row,
    rows_from_2 ws !! N = Some row ->
    slides (built ws) !! N = Some (slide_of_row (load_row (first_row ws) row)).
Proof.
  unfold built, deck, load_rows. cbn [slides]. split.
  - rewrite !length_map. reflexivity.
  - intros N row Hrow.
    change (map slide_of_row (map (load_row (first_row ws)) (rows_from_2 ws)))
      with (slide_of_row <$> (load_row (first_row ws) <$> rows_from_2 ws)).
    rewrite !list_lookup_fmap, Hrow. reflexivity.
Qed.

Variable fs : Files.
Variables (wb wb' : Workbook) (ws : Worksheet).
Variables (input_file output_file : option pystr).
Variables (input output sheet_name : pystr).
Hypothesis Hcolumns : missing_columns (first_row ws) = [].
Hypothesis Hrect : rectangular ws.
Hypothesis Hbatch : load_workbook fs (default (py "words.xlsx") input_file) = Ret wb.
Hypothesis Hactive : active wb = ws.
Hypothesis Hfile : load_workbook fs input = Ret wb'.
Hypothesis Hsheet : lookup_sheet (sheets wb') sheet_name = Some ws.

(** C1: when the header row has the six required columns, the deck handed
    to the save has exactly one slide per data row, and slide N is the slide
    built from the record of row N; the run created that many slides and
    made that one save. This holds for both entry points. *)
Theorem deck_has_one_slide_per_row :
  exists ppt r tr r' tr',
    length (slides ppt) = length (rows_from_2 ws) /\
    (forall N row,
       rows_from_2 ws !! N = Some row ->
       exists slide,
         slides ppt !! N = Some slide /\
         builds (load_row (first_row ws) row) slide) /\
    run (generate_ppt fs input_file output_file) = (r, tr) /\
    saves tr = [(default (py "words.pptx") output_file, ppt,
                 writable fs (default (py "words.pptx") output_file))] /\
    slides_added tr = length (rows_from_2 ws) /\
    run (generate_ppt_from_sheet fs input output sheet_name) = (r', tr') /\
    saves tr' = [(output, ppt, writable fs output)] /\
    slides_added tr' = length (rows_from_2 ws).
Proof.
  destruct (generate_ppt_run fs wb ws Hcolumns Hrect input_file output_file
              Hbatch Hactive) as (tr0 & Hs0 & Ha0 & Hrun0).
  destruct (generate_ppt_from_sheet_run fs wb' ws Hcolumns Hrect input output
              sheet_name Hfile Hsheet) as (tr1 & Hs1 & Ha1 & Hrun1).
  destruct (built_slides ws) as [Hlen Hnth].
  eexists (built ws), _, _, _, _.
  split; [exact Hlen|]. split.
  { intros N row Hrow. eexists. split; [apply Hnth, Hrow|].
    assert (Hin : row ∈ rows_from_2 ws)
      by (apply list_elem_of_lookup; eauto).
    apply ready_builds. split.
    - apply load_row_complete; [exact Hcolumns|].
      unfold rectangular in Hrect. rewrite Forall_forall in Hrect.
      apply Hrect, Hin.
    - apply load_row_xml_record. eapply xml_sheet_row; [|exact Hin].
      exact (served_active_xml fs wb ws _ Hbatch Hactive). }
  split; [exact Hrun0|].
  rewrite saves_app, slides_added_app, Hs0, Ha0.
  destruct (batch_end_trace fs ws (default (py "words.pptx") output_file))
    as [-> ->].
  split; [reflexivity|]. split; [lia|].
  split; [exact Hrun1|].
  rewrite saves_app, slides_added_app, Hs1, Ha1.
  destruct (sheet_end_trace fs ws output) as [-> ->].
  split; [reflexivity | lia].
Qed.

End EntryPointClaims.

Lemma template_rectangular : rectangular Template.ws.
Proof. unfold rectangular. simpl. repeat constructor. Qed.

Lemma deck_has_one_slide_per_row_witness :
  exists ppt tr,
    run (generate_ppt Template.fs None None) = (Ret 5, tr) /\
    saves tr = [(py "words.pptx", ppt, true)] /\
    length (slides ppt) = 5%nat.
Proof.
  destruct (deck_has_one_slide_per_row Template.fs Template.wb Template.wb
              Template.ws None None (py "words.xlsx") (py "out.pptx")
              (py "单词表") eq_refl template_rectangular eq_refl eq_refl
              eq_refl eq_refl)
    as (ppt & r & tr & _ & _ & Hlen & _ & Hrun & Hsaves & _).
  exists ppt, tr. split; [|split; [exact Hsaves | exact Hlen]].
  rewrite Hrun. f_equal.
  assert (Hfst : fst (run (generate_ppt Template.fs None None)) = Ret 5)
    by (vm_compute; reflexivity).
  rewrite Hrun in Hfst. exact Hfst.
Defined.

Section SaveClaims.

Variable fs : Files.
Variables (wb wb' : Workbook) (ws : Worksheet).
Variables (input_file output_file : option pystr).
Variables (input output sheet_name : pystr).
Hypothesis Hcolumns : missing_columns (first_row ws) = [].
Hypothesis Hrect : rectangular ws.
Hypothesis Hbatch : load_workbook fs (default (py "words.xlsx") input_file) = Ret wb.
Hypothesis Hactive : active wb = ws.
Hypothesis Hfile : load_workbook fs input = Ret wb'.
Hypothesis Hsheet : lookup_sheet (sheets wb') sheet_name = Some ws.

(** C6, as amended: when the save succeeds, both entry points return the
    number of slides of the saved deck, one per data row; when the save
    fails with an exception, [generate_ppt_from_sheet] raises an exception
    carrying its message, while [generate_ppt] prints the error and returns
    0. *)
Theorem save_outcome :
  let batch_output := default (py "words.pptx") output_file in
  len (slides (built ws)) = len (rows_from_2 ws) /\
  (save_error fs batch_output = None ->
   exists tr,
     run (generate_ppt fs input_file output_file)
     = (Ret (len (slides (built ws))), tr) /\
     saves tr = [(batch_output, built ws, true)]) /\
  (save_error fs output = None ->
   exists tr,
     run (generate_ppt_from_sheet fs input output sheet_name)
     = (Ret (len (slides (built ws))), tr) /\
     saves tr = [(output, built ws, true)]) /\
  (forall e,
     save_error fs output = Some e -> is_Exception e = true ->
     exists tr,
       run (generate_ppt_from_sheet fs input output sheet_name)
       = (Exc (Exception (py "保存演示文稿时发生错误: " ++ exn_str e)), tr) /\
       saves tr = [(output, built ws, false)]) /\
  (forall e,
     save_error fs batch_output = Some e -> is_Exception e = true ->
     exists tr,
       run (generate_ppt fs input_file output_file) = (Ret 0, tr) /\
       saves tr = [(batch_output, built ws, false)] /\
       List.last tr EvNewPresentation
       = EvPrint (py "保存演示文稿时发生错误：" ++ exn_str e)).
Proof.
  intros batch_output.
  destruct (generate_ppt_run fs wb ws Hcolumns Hrect input_file output_file
              Hbatch Hactive) as (tr0 & Hs0 & _ & Hrun0).
  destruct (generate_ppt_from_sheet_run fs wb' ws Hcolumns Hrect input output
              sheet_name Hfile Hsheet) as (tr1 & Hs1 & _ & Hrun1).
  fold batch_output in Hrun0.
  assert (Hlen : len (slides (built ws)) = len (rows_from_2 ws))
    by (unfold len; rewrite (proj1 (built_slides ws)); reflexivity).
  split; [exact Hlen|]. rewrite Hlen.
  unfold batch_end in Hrun0. unfold sheet_end in Hrun1.
  split; [|split; [|split]].
  - intros Hok. rewrite Hok in Hrun0. eexists. split; [exact Hrun0|].
    rewrite saves_app, Hs0. reflexivity.
  - intros Hok. rewrite Hok in Hrun1. eexists. split; [exact Hrun1|].
    rewrite saves_app, Hs1. reflexivity.
  - intros e Herr Hexc. rewrite Herr, Hexc in Hrun1.
    eexists. split; [exact Hrun1|]. rewrite saves_app, Hs1. reflexivity.
  - intros e Herr Hexc. rewrite Herr, Hexc in Hrun0.
    eexists. split; [exact Hrun0|]. rewrite saves_app, Hs0.
    split; [reflexivity|]. cbn [snd].
    change [EvSave batch_output (built ws) false;
            EvPrint (py "保存演示文稿时发生错误：" ++ exn_str e)]
      with ([EvSave batch_output (built ws) false]
            ++ [EvPrint (py "保存演示文稿时发生错误：" ++ exn_str e)]).
    rewrite app_assoc. apply last_last.
Qed.

End SaveClaims.

Lemma save_outcome_witness :
  exists tr,
    run (generate_ppt_from_sheet Template.fs_read_only (py "words.xlsx")
           (py "out.pptx") (py "单词表"))
    = (Exc (Exception (py "保存演示文稿时发生错误: Permission denied")), tr) /\
    saves tr = [(py "out.pptx", built Template.ws, false)].
Proof.
  destruct (save_outcome Template.fs_read_only Template.wb Template.wb
              Template.ws None None (py "words.xlsx") (py "out.pptx")
              (py "单词表") eq_refl template_rectangular eq_refl eq_refl
              eq_refl eq_refl)
    as (_ & _ & _ & Hraise & _).
  exact (Hraise (Exception (py "Permission denied")) eq_refl eq_refl).
Defined.

(** C6 as stated fails for [generate_ppt]: when the save is refused, it does
    not fail but returns 0, although five slides were built. *)
Lemma generate_ppt_swallows_save_error :
  save_error Template.fs_read_only (py "words.pptx")
  = Some (Exception (py "Permission denied")) /\
  exists tr,
    run (generate_ppt Template.fs_read_only None None) = (Ret 0, tr) /\
    saves tr = [(py "words.pptx", built Template.ws, false)] /\
    length (slides (built Template.ws)) = 5%nat /\
    slides_added tr = 5%nat.
Proof.
  split; [reflexivity|]. eexists. vm_compute. repeat split.
Qed.

Section EmptyDeck.

Variables (fs fs' : Files) (wb wb' : Workbook) (ws ws' : Worksheet).
Variables (input_file output_file : option pystr).
Variable e : exn.

Let input := default (py "words.xlsx") input_file.
Let output := default (py "words.pptx") output_file.

(** C10: with the six columns present and no data row, [generate_ppt] saves
    a deck of zero slides and returns 0; it returns 0 as well when the save
    of any deck fails with an exception, so the two results are the same. *)
Theorem empty_deck_returns_zero :
  missing_columns (first_row ws) = [] -> rows_from_2 ws = [] ->
  load_workbook fs input = Ret wb -> active wb = ws ->
  save_error fs output = None ->
  missing_columns (first_row ws') = [] -> rectangular ws' ->
  load_workbook fs' input = Ret wb' -> active wb' = ws' ->
  save_error fs' output = Some e -> is_Exception e = true ->
  exists tr tr',
    run (generate_ppt fs input_file output_file) = (Ret 0, tr) /\
    saves tr = [(output, deck [], true)] /\
    slides_added tr = 0%nat /\
    run (generate_ppt fs' input_file output_file) = (Ret 0, tr') /\
    saves tr' = [(output, built ws', false)] /\
    fst (run (generate_ppt fs input_file output_file))
    = fst (run (generate_ppt fs' input_file output_file)).
Proof.
  intros Hcolumns Hempty Hload Hactive Hok Hcolumns' Hrect' Hload' Hactive'
    Herr Hexc.
  assert (Hrect : rectangular ws) by (unfold rectangular; rewrite Hempty; constructor).
  destruct (generate_ppt_run fs wb ws Hcolumns Hrect input_file output_file
              Hload Hactive) as (tr0 & Hs0 & Ha0 & Hrun0).
  destruct (generate_ppt_run fs' wb' ws' Hcolumns' Hrect' input_file
              output_file Hload' Hactive') as (tr1 & Hs1 & _ & Hrun1).
  fold output in Hrun0, Hrun1.
  unfold batch_end in Hrun0, Hrun1.
  rewrite Hok in Hrun0. rewrite Herr, Hexc in Hrun1.
  assert (Hbuilt : built ws = deck [])
    by (unfold built, load_rows; rewrite Hempty; reflexivity).
  rewrite Hempty, Hbuilt in Hrun0. cbn [fst snd] in Hrun0, Hrun1.
  change (len []) with 0 in Hrun0.
  eexists _, _. split; [exact Hrun0|].
  split; [rewrite saves_app, Hs0; reflexivity|].
  split; [rewrite slides_added_app, Ha0, Hempty; reflexivity|].
  split; [exact Hrun1|].
  split; [rewrite saves_app, Hs1; reflexivity|].
  rewrite Hrun0, Hrun1. reflexivity.
Qed.

End EmptyDeck.

Lemma empty_deck_returns_zero_witness :
  exists tr tr',
    run (generate_ppt Template.fs_empty None None) = (Ret 0, tr) /\
    saves tr = [(py "words.pptx", deck [], true)] /\
    run (generate_ppt Template.fs_read_only None None) = (Ret 0, tr') /\
    saves tr' = [(py "words.pptx", built Template.ws, false)].
Proof.
  destruct (empty_deck_returns_zero Template.fs_empty Template.fs_read_only
              Template.wb_empty Template.wb Template.ws_empty Template.ws
              None None (Exception (py "Permission denied"))
              eq_refl eq_refl eq_refl eq_refl eq_refl
              eq_refl template_rectangular eq_refl eq_refl eq_refl eq_refl)
    as (tr & tr' & Hrun & Hsaves & _ & Hrun' & Hsaves' & _).
  exists tr, tr'. repeat split; assumption.
Defined.

(** ** More on the wrapper: sizes, edge thresholds, wrapping twice *)

Section WrapperSizes.

Lemma join_length sep (ls : list pystr) :
  ls <> [] ->
  length (join sep ls)
  = (length (concat ls) + length sep * (length ls - 1))%nat.
Proof.
  induction ls as [|l ls IH]; [congruence|]. intros _.
  destruct ls as [|l' ls].
  - simpl. rewrite app_nil_r. lia.
  - rewrite join_cons by discriminate.
    change (concat (l :: l' :: ls)) with (l ++ concat (l' :: ls)).
    rewrite !length_app, IH by discriminate. simpl. lia.
Qed.

Lemma chunks_length t n text : length (chunks t n text) = n.
Proof. unfold chunks. rewrite length_map, length_seq. reflexivity. Qed.

Lemma process_text_long_length (text : pystr) (threshold : Z) :
  0 < threshold -> threshold < len text ->
  exists out,
    process_text text threshold = Ret out /\
    len out = len text + 19 * ((len text + threshold - 1) / threshold - 1).
Proof.
  intros Ht Hlong. eexists. split; [apply process_text_long; assumption|].
  destruct (range_len_chunks (len text) threshold Ht Hlong)
    as (m & Hn & Hm1 & Hlo & Hhi).
  assert (Hq : (len text + threshold - 1) / threshold = Z.of_nat (S m)).
  { unfold range_len in Hn. destruct (Z.ltb_spec 0 threshold); [|lia].
    replace (len text - 0 + threshold - 1) with (len text + threshold - 1)
      in Hn by lia.
    pose proof (Z.div_pos (len text + threshold - 1) threshold). 
    unfold len in *. lia. }
  rewrite Hq, Hn. unfold len.
  rewrite join_length by (rewrite chunks_S; discriminate).
  rewrite chunks_length, chunks_concat by (unfold len in Hhi; nia).
  change (length WRAP_SEPARATOR) with 19%nat. lia.
Qed.

End WrapperSizes.

(** X1: for a positive threshold and a longer text, the wrapped text has the
    characters of the text and one 19-character separator between each two
    of its [ceil(len / threshold)] lines. *)
Theorem process_text_length (text : pystr) (threshold : Z) :
  0 < threshold -> threshold < len text ->
  exists out,
    process_text text threshold = Ret out /\
    len out = len text + 19 * ((len text + threshold - 1) / threshold - 1).
Proof.
  intros Ht Hlong.
  destruct (process_text_long_length text threshold Ht Hlong)
    as (out & Hrun & Hlen).
  exists out. split; [exact Hrun | exact Hlen].
Qed.

Lemma process_text_length_witness :
  exists out,
    process_text (py "词根词缀：ab") 3 = Ret out /\ len out = 7 + 19 * 2.
Proof.
  apply (process_text_length (py "词根词缀：ab") 3); reflexivity.
Defined.

(** X2: a threshold that is not positive is not guarded: on a text longer
    than it, threshold 0 raises the [ValueError] of [range], and a negative
    threshold returns the empty string, whatever the text. *)
Theorem process_text_nonpositive (text : pystr) (threshold : Z) :
  threshold < len text -> threshold <= 0 ->
  process_text text threshold
  = if threshold =? 0
    then Exc (ValueError (py "range() arg 3 must not be zero"))
    else Ret [].
Proof.
  intros Hlong Hneg. unfold process_text, range.
  destruct (Z.leb_spec (len text) threshold) as [?|_]; [lia|].
  destruct (Z.eqb_spec threshold 0) as [_|Hnz]; [reflexivity|].
  assert (Hnone : range_len 0 (len text) threshold = 0%nat).
  { unfold range_len. destruct (Z.ltb_spec 0 threshold); [lia|].
    assert ((0 - len text - threshold - 1) / - threshold <= 0); [|lia].
    apply Z.lt_succ_r. apply Z.div_lt_upper_bound; unfold len; lia. }
  rewrite Hnone. reflexivity.
Qed.

Lemma process_text_nonpositive_witness :
  process_text (py "单词释义") (-40) = Ret [] /\
  process_text (py "单词释义") 0
  = Exc (ValueError (py "range() arg 3 must not be zero")).
Proof.
  split.
  - apply (process_text_nonpositive (py "单词释义") (-40)); vm_compute;
      [reflexivity | discriminate].
  - reflexivity.
Defined.

(** X3: the wrapper is not idempotent on a text it wraps: its result is
    longer than the threshold again, so wrapping the result wraps it once
    more, into a strictly longer text. *)
Theorem process_text_twice (text : pystr) (threshold : Z) :
  0 < threshold -> threshold < len text ->
  exists once twice,
    process_text text threshold = Ret once /\
    process_text once threshold = Ret twice /\
    len text < len once < len twice.
Proof.
  intros Ht Hlong.
  destruct (process_text_long_length text threshold Ht Hlong)
    as (once & Honce & Hlen1).
  assert (Hq : forall n, threshold < n -> 2 <= (n + threshold - 1) / threshold).
  { intros n Hn. apply Z.div_le_lower_bound; lia. }
  pose proof (Hq _ Hlong) as Hq1.
  assert (Hlong1 : threshold < len once) by lia.
  destruct (process_text_long_length once threshold Ht Hlong1)
    as (twice & Htwice & Hlen2).
  pose proof (Hq _ Hlong1) as Hq2.
  exists once, twice. repeat split; try assumption; lia.
Qed.

Lemma process_text_twice_witness :
  exists once twice,
    process_text (py "abcd") 3 = Ret once /\
    process_text once 3 = Ret twice /\
    len (py "abcd") < len once < len twice.
Proof.
  apply (process_text_twice (py "abcd") 3); reflexivity.
Defined.

(** ** More on the loader: the keys of a record, the validation *)

Section RecordKeys.

Lemma fold_pairs_dom (pairs : list (cell * pystr)) : forall d : Row,
  dom (fold_left put_pair pairs d)
  =@{gset cell} dom d ∪ list_to_set (dict_key <$> pairs.*1).
Proof.
  induction pairs as [|[k v] pairs IH]; intros d.
  - simpl. symmetry. apply (right_id_L ∅ (∪)).
  - cbn [fold_left put_pair]. rewrite IH, dom_insert_L.
    cbn [fmap list_fmap fst list_to_set foldr].
    rewrite (comm_L (∪) {[dict_key k]} (dom d)), <- (assoc_L (∪)).
    reflexivity.
Qed.

Lemma zip_fst_take {A B} (l : list A) (k : list B) :
  (zip l k).*1 = take (length k) l.
Proof.
  revert k. induction l as [|a l IH]; intros [|b k]; try reflexivity.
  simpl. f_equal. apply IH.
Qed.

Lemma required_columns_NoDup : NoDup REQUIRED_COLUMNS.
Proof. apply (bool_decide_unpack _). vm_compute. exact I. Qed.

End RecordKeys.

(** X4: the keys of a record are exactly the header values of the columns
    the row has cells for (booleans filed as 0 and 1): cells to the right
    of the last header cell are dropped, and a header cell with no cell
    under it gives no key. *)
Theorem load_row_keys (headers row : list cell) :
  dom (load_row headers row)
  =@{gset cell} list_to_set (dict_key <$> take (length row) headers).
Proof.
  rewrite load_row_zip, dict_of_pairs_fold, fold_pairs_dom.
  rewrite zip_fst_take, length_map, dom_empty_L. apply (left_id_L ∅ (∪)).
Qed.

(** X5: the names the validation reports are exactly the required names
    that are the value of no header cell, so it passes exactly when each of
    the six required names is the value of some header cell; the absent
    names are reported once each, in the order of [REQUIRED_COLUMNS]. *)
Theorem missing_columns_none_iff (headers : list cell) :
  (forall col,
     col ∈ missing_columns headers <->
     col ∈ REQUIRED_COLUMNS /\ CStr col ∉ headers) /\
  (missing_columns headers = [] <->
   forall col, col ∈ REQUIRED_COLUMNS -> CStr col ∈ headers) /\
  sublist (missing_columns headers) REQUIRED_COLUMNS /\
  NoDup (missing_columns headers).
Proof.
  split; [intros col; apply missing_columns_spec|].
  split; [split|split].
  - intros Hnone col Hreq.
    destruct (decide (CStr col ∈ headers)) as [Hin|Hout]; [exact Hin|].
    assert (Hmiss : col ∈ missing_columns headers)
      by (apply missing_columns_spec; split; assumption).
    rewrite Hnone in Hmiss. inversion Hmiss.
  - intros Hall. destruct (missing_columns headers) as [|col rest] eqn:Hm;
      [reflexivity|].
    assert (Hmiss : col ∈ missing_columns headers) by (rewrite Hm; left).
    apply missing_columns_spec in Hmiss as [Hreq Hout].
    destruct (Hout (Hall col Hreq)).
  - apply sublist_filter.
  - apply NoDup_filter, required_columns_NoDup.
Qed.

(** ** More on the slide layout: missing fields, extra fields, geometry *)

Ltac required_column :=
  apply list_elem_of_In; cbn [In REQUIRED_COLUMNS]; auto 10.

Section SlideOutcome.

Lemma xml_record_fields (row : Row) :
  xml_record row <-> xml_fields row = true.
Proof.
  unfold xml_fields. rewrite forallb_forall. split.
  - intros Hxml col Hin.
    destruct (row !! CStr col) as [v|] eqn:Hv; [|reflexivity].
    apply (Hxml col v); [apply list_elem_of_In, Hin | exact Hv].
  - intros Hall col v Hreq Hv. apply list_elem_of_In in Hreq.
    specialize (Hall col Hreq). unfold pystr in *. rewrite Hv in Hall.
    exact Hall.
Qed.

Lemma find_lacks_complete (row : Row) :
  find (lacks row) REQUIRED_COLUMNS = None <-> complete row.
Proof.
  split.
  - intros Hfind col Hreq. apply list_elem_of_In in Hreq.
    pose proof (find_none _ _ Hfind col Hreq) as Hcol. unfold lacks in Hcol.
    destruct (row !! CStr col); [eauto | discriminate].
  - intros Hrow.
    destruct (find (lacks row) REQUIRED_COLUMNS) as [key|] eqn:Hfind;
      [|reflexivity].
    apply find_some in Hfind as [Hin Hlacks].
    destruct (Hrow key (proj2 (list_elem_of_In _ _) Hin)) as [v Hv].
    unfold lacks, pystr in *. rewrite Hv in Hlacks. discriminate.
Qed.

(** What each way [generate_slide] can stop says of the record. *)
Lemma slide_failure_spec (row : Row) :
  match slide_failure row with
  | None => ready row
  | Some (KeyError key) => key ∈ REQUIRED_COLUMNS /\ row !! CStr key = None
  | Some (ValueError msg) => msg = XML_ERROR /\ ~ xml_record row
  | Some _ => False
  end.
Proof.
  assert (Hready : find (lacks row) REQUIRED_COLUMNS = None ->
                   xml_fields row = true -> ready row).
  { intros Hfind Hxml.
    split; [apply find_lacks_complete, Hfind | apply xml_record_fields, Hxml]. }
  assert (Hstop : xml_fields row = false ->
                  XML_ERROR = XML_ERROR /\ ~ xml_record row).
  { intros Hxml. split; [reflexivity|].
    rewrite xml_record_fields, Hxml. discriminate. }
  revert Hready Hstop.
  unfold slide_failure, field_failure, text_failure.
  unfold xml_fields, lacks, REQUIRED_COLUMNS. cbn [forallb find].
  destruct (row !! CStr (py "英文单词")) as [w|] eqn:Hw;
    [|intros _ _; split; [required_column | assumption]].
  destruct (xml_text w) eqn:Hxw; [|intros _ Hstop; apply Hstop; reflexivity].
  destruct (row !! CStr (py "英文音标")) as [p|] eqn:Hp;
    [|intros _ _; split; [required_column | assumption]].
  destruct (xml_text p) eqn:Hxp; [|intros _ Hstop; apply Hstop; reflexivity].
  destruct (row !! CStr (py "词根词缀")) as [m|] eqn:Hm;
    [|intros _ _; split; [required_column | assumption]].
  destruct (xml_text m) eqn:Hxm; [|intros _ Hstop; apply Hstop; reflexivity].
  destruct (row !! CStr (py "例句")) as [e|] eqn:He;
    [|intros _ _; split; [required_column | assumption]].
  destruct (row !! CStr (py "例句释义")) as [ed|] eqn:Hed;
    [|intros _ _; split; [required_column | assumption]].
  destruct (xml_text e) eqn:Hxe; [|intros _ Hstop; apply Hstop; reflexivity].
  destruct (xml_text ed) eqn:Hxed; [|intros _ Hstop; apply Hstop; reflexivity].
  destruct (row !! CStr (py "单词释义")) as [wd|] eqn:Hwd;
    [|intros _ _; split; [required_column | assumption]].
  destruct wd as [|c wd]; [intros Hready _; apply Hready; reflexivity|].
  cbn [truthy negb orb].
  destruct (xml_text (c :: wd)) eqn:Hxwd; intros Hready Hstop;
    [apply Hready; reflexivity | apply Hstop; reflexivity].
Qed.

Lemma slide_failure_ready (row : Row) :
  ready row -> slide_failure row = None.
Proof.
  intros [Hrow Hxml]. pose proof (slide_failure_spec row) as Hspec.
  destruct (slide_failure row) as [[code|key|msg|msg]|];
    [destruct Hspec | | | destruct Hspec | reflexivity].
  - destruct Hspec as [Hreq Hnone]. destruct (Hrow key Hreq) as [v Hv].
    unfold pystr in *. rewrite Hv in Hnone. discriminate.
  - destruct Hspec as [_ Hnot]. destruct (Hnot Hxml).
Qed.

Lemma slide_failure_xml (row : Row) :
  xml_record row ->
  slide_failure row = KeyError <$> find (lacks row) REQUIRED_COLUMNS.
Proof.
  intros Hxml. apply xml_record_fields in Hxml. revert Hxml.
  unfold slide_failure, field_failure, text_failure.
  unfold xml_fields, lacks, REQUIRED_COLUMNS. cbn [forallb find].
  destruct (row !! CStr (py "英文单词")) as [w|]; [|reflexivity].
  destruct (xml_text w); [|discriminate].
  destruct (row !! CStr (py "英文音标")) as [p|]; [|reflexivity].
  destruct (xml_text p); [|discriminate].
  destruct (row !! CStr (py "词根词缀")) as [m|]; [|reflexivity].
  destruct (xml_text m); [|discriminate].
  destruct (row !! CStr (py "例句")) as [e|]; [|reflexivity].
  destruct (row !! CStr (py "例句释义")) as [ed|]; [|reflexivity].
  destruct (xml_text e); [|discriminate].
  destruct (xml_text ed); [|discriminate].
  destruct (row !! CStr (py "单词释义")) as [wd|]; [|reflexivity].
  destruct (xml_text wd); [|discriminate].
  rewrite orb_true_r. reflexivity.
Qed.

(** Whatever stops [generate_slide] is an [Exception]. *)
Lemma slide_failure_exception (row : Row) (e : exn) :
  slide_failure row = Some e -> is_Exception e = true.
Proof.
  intros Hstop. pose proof (slide_failure_spec row) as Hspec.
  rewrite Hstop in Hspec. destruct e; [destruct Hspec | reflexivity ..].
Qed.

Lemma slide_failure_agree (row row' : Row) :
  (forall col, col ∈ REQUIRED_COLUMNS -> row !! CStr col = row' !! CStr col) ->
  slide_failure row = slide_failure row' /\ slide_of_row row = slide_of_row row'.
Proof.
  intros Hsame.
  destruct (required_columns_cases _ Hsame) as (H1 & H2 & H3 & H4 & H5 & H6).
  unfold slide_failure, field_failure, slide_of_row, field, pystr in *.
  rewrite H1, H2, H3, H4, H5, H6. split; reflexivity.
Qed.

End SlideOutcome.

Section SlideFacts.

Lemma builds_slide_of_row row slide :
  builds row slide -> complete row /\ slide = slide_of_row row.
Proof.
  intros Hbuilds. pose proof (Hbuilds (deck []) []) as Hrun.
  rewrite generate_slide_cases in Hrun.
  pose proof (slide_failure_spec row) as Hspec.
  destruct (slide_failure row) as [e|]; [discriminate|].
  split; [apply Hspec|].
  injection Hrun as Hslide. symmetry. exact Hslide.
Qed.

Lemma region_on_canvas l t w h fit wrap size al txt :
  0 <= l -> 0 <= t -> 0 < w -> 0 < h -> l + w <= 160 -> t + h <= 90 ->
  on_canvas (region l t w h fit wrap size al txt).
Proof.
  intros. unfold on_canvas, region. cbn [left top width height].
  change SLIDE_WIDTH with (tenth_inches 160).
  change SLIDE_HEIGHT with (tenth_inches 90).
  unfold tenth_inches. lia.
Qed.

End SlideFacts.

(** X6: [generate_slide] adds the slide to the deck and then either builds
    the slide of the record, which has the six fields, all of them text
    that XML can hold; or raises [KeyError] for a field the record lacks;
    or raises [ValueError] from a text assignment, one of the fields being
    no text that XML can hold. On a record whose fields are all such text
    the [KeyError] is for the first field the record lacks, in the order of
    [REQUIRED_COLUMNS]; on a record that has the six fields, one of them
    not such text, it is the [ValueError]. *)
Theorem generate_slide_missing_field (ppt : Presentation) (row : Row)
    (tr : list event) :
  (exists result,
     generate_slide ppt row tr = (result, tr ++ [EvAddSlide]) /\
     match result with
     | Ret ppt' => ready row /\ ppt' = with_slide ppt (slide_of_row row)
     | Exc (KeyError key) => key ∈ REQUIRED_COLUMNS /\ row !! CStr key = None
     | Exc (ValueError msg) => msg = XML_ERROR /\ ~ xml_record row
     | Exc _ => False
     end) /\
  (xml_record row ->
   forall key,
     find (lacks row) REQUIRED_COLUMNS = Some key ->
     generate_slide ppt row tr = (Exc (KeyError key), tr ++ [EvAddSlide])) /\
  (xml_record row ->
   find (lacks row) REQUIRED_COLUMNS = None ->
   generate_slide ppt row tr
   = (Ret (with_slide ppt (slide_of_row row)), tr ++ [EvAddSlide])) /\
  (complete row -> ~ xml_record row ->
   generate_slide ppt row tr
   = (Exc (ValueError XML_ERROR), tr ++ [EvAddSlide])).
Proof.
  rewrite generate_slide_cases.
  pose proof (slide_failure_spec row) as Hspec.
  split; [|split; [|split]].
  - eexists. split; [reflexivity|].
    destruct (slide_failure row) as [e|]; [exact Hspec|].
    split; [exact Hspec | reflexivity].
  - intros Hxml key Hfind.
    rewrite (slide_failure_xml row Hxml), Hfind. reflexivity.
  - intros Hxml Hfind.
    rewrite (slide_failure_xml row Hxml), Hfind. reflexivity.
  - intros Hrow Hnot.
    destruct (slide_failure row) as [[code|key|msg|msg]|].
    + destruct Hspec.
    + destruct Hspec as [Hreq Hnone]. destruct (Hrow key Hreq) as [v Hv].
      unfold pystr in *. rewrite Hv in Hnone. discriminate.
    + destruct Hspec as [-> _]. reflexivity.
    + destruct Hspec.
    + destruct Hspec as [_ Hxml]. destruct (Hnot Hxml).
Qed.

Lemma generate_slide_missing_field_witness :
  generate_slide (deck [])
    (<[CStr (py "英文单词") := py "cat"]> (<[CStr (py "例句") := []]> ∅)) []
  = (Exc (KeyError (py "英文音标")), [EvAddSlide]) /\
  generate_slide (deck [])
    (<[CStr (py "英文单词") := [65534%N]]>
       (load_row Template.headers (hd [] Template.example_data))) []
  = (Exc (ValueError XML_ERROR), [EvAddSlide]).
Proof.
  split.
  - apply (proj1 (proj2 (generate_slide_missing_field (deck [])
             (<[CStr (py "英文单词") := py "cat"]>
                (<[CStr (py "例句") := []]> ∅)) []))).
    + apply xml_record_fields. reflexivity.
    + reflexivity.
  - apply (proj2 (proj2 (proj2 (generate_slide_missing_field (deck [])
             (<[CStr (py "英文单词") := [65534%N]]>
                (load_row Template.headers (hd [] Template.example_data)))
             [])))).
    + apply find_lacks_complete. reflexivity.
    + intros Hxml. apply xml_record_fields in Hxml. discriminate Hxml.
Defined.

(** X7: the slide depends on the six required fields only: two records that
    agree on them give the same result, whatever other columns they carry. *)
Theorem generate_slide_ignores_other_fields (ppt : Presentation)
    (row row' : Row) (tr : list event) :
  (forall col, col ∈ REQUIRED_COLUMNS -> row !! CStr col = row' !! CStr col) ->
  generate_slide ppt row tr = generate_slide ppt row' tr.
Proof.
  intros Hsame. rewrite !generate_slide_cases.
  destruct (slide_failure_agree row row' Hsame) as [-> ->]. reflexivity.
Qed.

Lemma generate_slide_ignores_other_fields_witness :
  generate_slide (deck [])
    (<[CStr (py "备注") := py "extra"]>
       (load_row Template.headers (hd [] Template.example_data))) []
  = generate_slide (deck [])
      (load_row Template.headers (hd [] Template.example_data)) [].
Proof.
  apply (generate_slide_ignores_other_fields (deck [])).
  intros col Hreq. apply lookup_insert_ne. intros Heq.
  injection Heq as <-. revert Hreq. apply (bool_decide_unpack _).
  vm_compute. exact I.
Defined.

(** X8: every text box of a built slide lies on the 16 by 9 inch canvas;
    the phonetic box lies over the word box, and the definition box, when
    the slide has one, reaches half an inch into the morphology box. *)
Theorem regions_on_canvas (row : Row) (slide : Slide) :
  builds row slide ->
  Forall on_canvas slide /\
  (forall word phonetic,
     slide !! 0%nat = Some word -> slide !! 1%nat = Some phonetic ->
     overlap word phonetic) /\
  (forall morphology definition,
     slide !! 2%nat = Some morphology -> slide !! 4%nat = Some definition ->
     overlap morphology definition /\
     top definition + height definition - top morphology = tenth_inches 5).
Proof.
  intros Hbuilds. apply builds_slide_of_row in Hbuilds as [_ ->].
  unfold slide_of_row, table_slide, fixed_regions.
  split; [|split].
  - destruct (truthy (field row (py "单词释义")));
      repeat constructor; apply region_on_canvas; lia.
  - intros word phonetic Hword Hphonetic.
    injection Hword as <-. injection Hphonetic as <-.
    unfold overlap. cbn [left top width height word_region phonetic_region region].
    unfold tenth_inches. lia.
  - intros morphology definition Hm Hd. injection Hm as <-.
    destruct (truthy (field row (py "单词释义"))); [|discriminate].
    injection Hd as <-.
    unfold overlap.
    cbn [left top width height morphology_region definition_region region].
    unfold tenth_inches. lia.
Qed.

Lemma regions_on_canvas_witness :
  Forall on_canvas
    (slide_of_row (load_row Template.headers (hd [] Template.example_data))).
Proof.
  apply (regions_on_canvas
           (load_row Template.headers (hd [] Template.example_data))).
  apply ready_builds. split.
  - apply load_row_complete; reflexivity.
  - exact template_apple_xml.
Defined.

(** ** More on the entry points: unreadable input, console output *)

Section Console.

Lemma printed_app tr tr' : printed (tr ++ tr') = printed tr ++ printed tr'.
Proof.
  induction tr as [|ev tr IH]; [reflexivity|].
  destruct ev; simpl; rewrite IH; reflexivity.
Qed.

Lemma progress_lines_S word_count first count :
  progress_lines word_count first (S count)
  = (if reports_progress word_count (Z.of_nat first)
     then [progress_line word_count (Z.of_nat first)] else [])
    ++ progress_lines word_count (S first) count.
Proof.
  unfold progress_lines. cbn [seq map]. rewrite filter_cons.
  destruct (reports_progress word_count (Z.of_nat first)) eqn:Hrep.
  - rewrite decide_True by reflexivity. reflexivity.
  - rewrite decide_False by discriminate. reflexivity.
Qed.

Lemma generate_ppt_loop_printed word_count (data : list Row) :
  forall start ppt tr,
    Forall ready data ->
    exists ppt' tr',
      for_each (zip (seq start (length data)) data)
        (generate_ppt_step word_count) ppt tr = (Ret ppt', tr') /\
      printed tr'
      = printed tr ++ progress_lines word_count (S start) (length data).
Proof.
  induction data as [|row data IH]; intros start ppt tr Hrows.
  - exists ppt, tr. split; [reflexivity|].
    unfold progress_lines. simpl. rewrite app_nil_r. reflexivity.
  - inversion Hrows as [|? ? Hrow Hrest]; subst.
    cbn [length seq zip zip_with for_each].
    assert (Hstep : exists tr1,
      generate_ppt_step word_count (start, row) ppt tr
      = (Ret (with_slide ppt (slide_of_row row)), tr1) /\
      printed tr1
      = printed tr
        ++ (if reports_progress word_count (Z.of_nat (S start))
            then [progress_line word_count (Z.of_nat (S start))] else [])).
    { unfold generate_ppt_step.
      replace (Z.of_nat start + 1) with (Z.of_nat (S start)) by lia.
      fold (reports_progress word_count (Z.of_nat (S start))).
      destruct (reports_progress word_count (Z.of_nat (S start))); run_monad.
      - eexists. split; [apply ready_builds, Hrow|].
        rewrite !printed_app. simpl. rewrite app_nil_r. reflexivity.
      - eexists. split; [apply ready_builds, Hrow|].
        rewrite !printed_app. simpl. reflexivity. }
    destruct Hstep as (tr1 & Hstep & Hprinted1).
    destruct (IH (S start) (with_slide ppt (slide_of_row row)) tr1 Hrest)
      as (ppt' & tr' & Hloop & Hprinted).
    exists ppt', tr'. rewrite (bind_Ret _ _ _ _ _ Hstep).
    split; [exact Hloop|].
    rewrite Hprinted, Hprinted1, progress_lines_S, <- app_assoc. reflexivity.
Qed.

End Console.

(** X9: when the workbook cannot be opened, batch mode prints the error and
    exits with status 1; nothing else happens: no presentation, no slide,
    no save. *)
Theorem unreadable_workbook_exits (fs : Files)
    (input_file output_file : option pystr) (e : exn) :
  load_workbook fs (default (py "words.xlsx") input_file) = Exc e ->
  is_Exception e = true ->
  run (generate_ppt fs input_file output_file)
  = (Exc (SystemExit 1),
     [EvLoadWorkbook (default (py "words.xlsx") input_file);
      EvPrint (py "读取Excel文件时发生错误：" ++ exn_str e)]).
Proof.
  intros Hload Hexc. unfold run, generate_ppt. apply bind_Exc.
  unfold load_data, open_workbook. run_monad. rewrite Hload. run_monad.
  destruct e; [discriminate Hexc | reflexivity ..].
Qed.

Lemma unreadable_workbook_exits_witness :
  run (generate_ppt fs_unreadable None None)
  = (Exc (SystemExit 1),
     [EvLoadWorkbook (py "words.xlsx");
      EvPrint (py "读取Excel文件时发生错误：No such file or directory")]).
Proof.
  exact (unreadable_workbook_exits fs_unreadable None None
           (Exception (py "No such file or directory")) eq_refl eq_refl).
Defined.

(** X10: in the sheet-selecting mode, a workbook that cannot be opened and
    a sheet name the workbook does not have both end the run with an
    exception whose message starts with "加载表格失败: "; nothing is created
    or saved. *)
Theorem sheet_unavailable_raises (fs : Files)
    (input output sheet_name : pystr) :
  (forall e,
     load_workbook fs input = Exc e -> is_Exception e = true ->
     run (generate_ppt_from_sheet fs input output sheet_name)
     = (Exc (Exception (py "加载表格失败: " ++ exn_str e)),
        [EvLoadWorkbook input])) /\
  (forall wb,
     load_workbook fs input = Ret wb ->
     lookup_sheet (sheets wb) sheet_name = None ->
     exists reason,
       run (generate_ppt_from_sheet fs input output sheet_name)
       = (Exc (Exception (py "加载表格失败: " ++ reason)),
          [EvLoadWorkbook input])).
Proof.
  split.
  - intros e Hload Hexc. unfold run, generate_ppt_from_sheet. apply bind_Exc.
    unfold load_data_from_sheet, open_workbook. run_monad.
    rewrite Hload. run_monad.
    destruct e; [discriminate Hexc | reflexivity ..].
  - intros wb Hload Hsheet. eexists.
    unfold run, generate_ppt_from_sheet. apply bind_Exc.
    unfold load_data_from_sheet, open_workbook, get_sheet. run_monad.
    rewrite Hload. run_monad. rewrite Hsheet. run_monad. reflexivity.
Qed.

Lemma sheet_unavailable_raises_witness :
  exists reason,
    run (generate_ppt_from_sheet Template.fs (py "words.xlsx")
           (py "out.pptx") (py "Sheet1"))
    = (Exc (Exception (py "加载表格失败: " ++ reason)),
       [EvLoadWorkbook (py "words.xlsx")]).
Proof.
  exact (proj2 (sheet_unavailable_raises Template.fs (py "words.xlsx")
                  (py "out.pptx") (py "Sheet1"))
           Template.wb eq_refl eq_refl).
Defined.

Section ConsoleOutput.

Variable fs : Files.
Variables (wb : Workbook) (ws : Worksheet).
Variables (input_file output_file : option pystr).
Hypothesis Hcolumns : missing_columns (first_row ws) = [].
Hypothesis Hrect : rectangular ws.
Hypothesis Hload : load_workbook fs (default (py "words.xlsx") input_file) = Ret wb.
Hypothesis Hactive : active wb = ws.

(** X11: the console output of a batch run on a valid worksheet of [n] data
    rows: the opening line with [n], a progress line for each record whose
    number is a multiple of 10 or is [n], and then either the two closing
    lines or, when the save fails, the error line. *)
Theorem generate_ppt_console :
  let n := length (rows_from_2 ws) in
  let output := default (py "words.pptx") output_file in
  let body :=
    (py "开始生成PPT，共 " ++ str_int (Z.of_nat n) ++ py " 个单词...")
    :: progress_lines (Z.of_nat n) 1 n in
  printed (snd (run (generate_ppt fs input_file output_file)))
  = match save_error fs output with
    | None =>
        body ++ [[10%N] ++ py "成功生成PPT文件：" ++ output;
                 py "共处理 " ++ str_int (Z.of_nat n) ++ py " 个单词"]
    | Some e =>
        if is_Exception e
        then body ++ [py "保存演示文稿时发生错误：" ++ exn_str e]
        else body
    end.
Proof.
  intros n output body.
  pose proof (load_data_ok fs _ wb Hload []) as Hdata.
  rewrite Hactive in Hdata. specialize (Hdata Hcolumns).
  unfold run, generate_ppt.
  rewrite (bind_Ret _ _ _ _ _ Hdata).
  unfold create_presentation. run_monad.
  assert (Hlen : length (load_rows ws) = n)
    by (unfold load_rows; rewrite length_map; reflexivity).
  unfold enumerate, len. rewrite Hlen.
  match goal with
  | |- context [for_each _ ?step ?ppt ?tr] =>
      destruct (generate_ppt_loop_printed (Z.of_nat n) (load_rows ws)
                  0%nat ppt tr (load_rows_ready ws Hcolumns Hrect
                     (served_active_xml fs wb ws _ Hload Hactive)))
        as (ppt' & tr' & Hloop & Hprinted)
  end.
  rewrite Hlen in Hloop, Hprinted. rewrite Hloop.
  cbn [app printed] in Hprinted. fold body in Hprinted.
  unfold save. fold output.
  destruct (save_error fs output) as [e|]; run_monad.
  - destruct e; cbn [snd]; rewrite !printed_app, Hprinted; cbn [printed];
      rewrite ?app_nil_r; reflexivity.
  - cbn [snd]. rewrite !printed_app, Hprinted. cbn [printed].
    rewrite app_nil_r, <- app_assoc. reflexivity.
Qed.

End ConsoleOutput.

Lemma generate_ppt_console_witness :
  printed (snd (run (generate_ppt Template.fs None None)))
  = [py "开始生成PPT，共 5 个单词..."; py "处理进度：5/5";
     [10%N] ++ py "成功生成PPT文件：words.pptx"; py "共处理 5 个单词"].
Proof.
  exact (generate_ppt_console Template.fs Template.wb Template.ws None None
           eq_refl template_rectangular eq_refl eq_refl).
Defined.

Section Silent.

Lemma load_data_from_sheet_silent fs input sheet_name tr :
  exists o tr',
    load_data_from_sheet fs input sheet_name tr = (o, tr') /\
    printed tr' = printed tr.
Proof.
  unfold load_data_from_sheet, open_workbook, get_sheet. run_monad.
  assert (Hsame : printed (tr ++ [EvLoadWorkbook input]) = printed tr)
    by (rewrite printed_app; apply app_nil_r).
  destruct (load_workbook fs input) as [wb|e]; run_monad.
  - destruct (lookup_sheet (sheets wb) sheet_name) as [ws|]; run_monad.
    + destruct (missing_columns (first_row ws)); eauto.
    + eauto.
  - destruct e; eauto.
Qed.

Lemma generate_slide_loop_silent (items : list (nat * Row)) :
  forall ppt tr,
    exists o tr',
      for_each items (fun '(index, row) ppt => generate_slide ppt row) ppt tr
      = (o, tr') /\
      printed tr' = printed tr.
Proof.
  induction items as [|[i row] items IH]; intros ppt tr.
  - exists (Ret ppt), tr. split; reflexivity.
  - cbn [for_each]. unfold bind at 1. rewrite generate_slide_cases.
    assert (Hsame : printed (tr ++ [EvAddSlide]) = printed tr)
      by (rewrite printed_app; apply app_nil_r).
    destruct (slide_failure row) as [e|].
    + eauto.
    + destruct (IH (with_slide ppt (slide_of_row row)) (tr ++ [EvAddSlide]))
        as (o & tr' & Hloop & Hprinted).
      exists o, tr'. split; [exact Hloop | congruence].
Qed.

End Silent.

(** X12: the sheet-selecting entry point never prints: whatever the
    workbook, the sheet name and the fate of the save, its run leaves the
    console untouched, and every failure travels in the exception. *)
Theorem generate_ppt_from_sheet_silent (fs : Files)
    (input output sheet_name : pystr) :
  printed (snd (run (generate_ppt_from_sheet fs input output sheet_name))) = [].
Proof.
  unfold run, generate_ppt_from_sheet.
  destruct (load_data_from_sheet_silent fs input sheet_name [])
    as (o & tr1 & Hdata & Hp1).
  destruct o as [data|e].
  - rewrite (bind_Ret _ _ _ _ _ Hdata).
    unfold create_presentation. run_monad.
    match goal with
    | |- context [for_each ?items _ ?ppt ?tr] =>
        destruct (generate_slide_loop_silent items ppt tr)
          as (o & tr2 & Hloop & Hp2)
    end.
    rewrite Hloop.
    assert (Hquiet : printed tr2 = []).
    { rewrite Hp2, printed_app, Hp1. reflexivity. }
    destruct o as [ppt|e]; [|exact Hquiet].
    unfold save. destruct (save_error fs output) as [e|]; run_monad.
    + destruct e; cbn [snd]; rewrite printed_app, Hquiet; reflexivity.
    + cbn [snd]. rewrite printed_app, Hquiet. reflexivity.
  - rewrite (bind_Exc _ _ _ _ _ Hdata). exact Hp1.
Qed.

(** ** The interactive shell *)

Section ShellGenerate.

Variable fs : Files.

Lemma generate_unfilled g tr :
  truthy (input_path_var g) && truthy (sheet_var g)
  && truthy (output_path_var g) = false ->
  generate fs g tr
  = (Ret tt,
     show g (showwarning (py "警告")
               (if negb (truthy (input_path_var g)) then py "请先选择输入文件"
                else if negb (truthy (sheet_var g)) then py "请选择表格"
                else py "请设置输出文件路径")),
     tr).
Proof.
  unfold generate.
  destruct (truthy (input_path_var g)), (truthy (sheet_var g)),
    (truthy (output_path_var g)); cbn [negb andb]; intros Hempty;
    try discriminate; reflexivity.
Qed.

Hypothesis Hfs : raises_exceptions_only fs.

Lemma load_data_from_sheet_exception input sheet_name tr :
  exists o tr',
    load_data_from_sheet fs input sheet_name tr = (o, tr') /\
    forall e, o = Exc e -> is_Exception e = true.
Proof.
  unfold load_data_from_sheet, open_workbook, get_sheet. run_monad.
  destruct (load_workbook fs input) as [wb|e] eqn:Hload; run_monad.
  - destruct (lookup_sheet (sheets wb) sheet_name) as [ws|]; run_monad.
    + destruct (missing_columns (first_row ws));
        eexists _, _; (split; [reflexivity|]); intros e He;
        inversion He; reflexivity.
    + eexists _, _. split; [reflexivity|]. intros e He. inversion He.
      reflexivity.
  - pose proof (proj1 Hfs _ _ Hload) as Hexc.
    destruct e; try discriminate Hexc;
      eexists _, _; (split; [reflexivity|]); intros e He; inversion He;
      reflexivity.
Qed.

Lemma generate_slide_loop_exception (items : list (nat * Row)) :
  forall ppt tr,
    exists o tr',
      for_each items (fun '(index, row) ppt => generate_slide ppt row) ppt tr
      = (o, tr') /\
      forall e, o = Exc e -> is_Exception e = true.
Proof.
  induction items as [|[i row] items IH]; intros ppt tr.
  - exists (Ret ppt), tr. split; [reflexivity|]. intros e He. inversion He.
  - cbn [for_each]. unfold bind at 1. rewrite generate_slide_cases.
    destruct (slide_failure row) as [e|] eqn:Hstop.
    + eexists _, _. split; [reflexivity|]. intros e0 He0.
      injection He0 as <-. exact (slide_failure_exception row e Hstop).
    + apply IH.
Qed.

Lemma generate_ppt_from_sheet_exception input output sheet_name tr :
  exists o tr',
    generate_ppt_from_sheet fs input output sheet_name tr = (o, tr') /\
    forall e, o = Exc e -> is_Exception e = true.
Proof.
  unfold generate_ppt_from_sheet.
  destruct (load_data_from_sheet_exception input sheet_name tr)
    as (o & tr1 & Hdata & Hexc1).
  destruct o as [data|e].
  - rewrite (bind_Ret _ _ _ _ _ Hdata).
    unfold create_presentation. run_monad.
    match goal with
    | |- context [for_each ?items _ ?ppt ?tr0] =>
        destruct (generate_slide_loop_exception items ppt tr0)
          as (o & tr2 & Hloop & Hexc2)
    end.
    rewrite Hloop.
    destruct o as [ppt|e];
      [|exists (Exc e), tr2; split; [reflexivity|];
        intros e0 He0; injection He0 as <-; apply Hexc2; reflexivity].
    unfold save. destruct (save_error fs output) as [e|] eqn:Hsave; run_monad.
    + pose proof (proj2 Hfs _ _ Hsave) as Hexc.
      destruct e; try discriminate Hexc;
        eexists _, _; (split; [reflexivity|]); intros e He; inversion He;
        reflexivity.
    + eexists _, _. split; [reflexivity|]. intros e He. inversion He.
  - rewrite (bind_Exc _ _ _ _ _ Hdata).
    exists (Exc e), tr1. split; [reflexivity|].
    intros e0 He0. injection He0 as <-. apply Hexc1. reflexivity.
Qed.

End ShellGenerate.

(** X13: the generate action checks the input path, the sheet name and the
    output path in this order; when one is empty it shows one warning
    naming the first empty one and does nothing else: no workbook is opened
    and the form keeps its values. *)
Theorem generate_requires_fields (fs : Files) (g : Gui) (tr : list event) :
  truthy (input_path_var g) && truthy (sheet_var g)
  && truthy (output_path_var g) = false ->
  exists message,
    generate fs g tr = (Ret tt, show g (showwarning (py "警告") message), tr) /\
    message
    = (if negb (truthy (input_path_var g)) then py "请先选择输入文件"
       else if negb (truthy (sheet_var g)) then py "请选择表格"
       else py "请设置输出文件路径").
Proof.
  intros Hempty. eexists. split; [apply generate_unfilled, Hempty|].
  reflexivity.
Qed.

Lemma generate_requires_fields_witness :
  generate Template.fs init_gui []
  = (Ret tt, show init_gui (showwarning (py "警告") (py "请先选择输入文件")), []).
Proof.
  destruct (generate_requires_fields Template.fs init_gui [] eq_refl)
    as (message & Hrun & ->).
  exact Hrun.
Defined.

Section ShellReports.

Variable fs : Files.
Variables (g : Gui) (wb : Workbook) (ws : Worksheet).
Hypothesis Hinput : truthy (input_path_var g) = true.
Hypothesis Hname : truthy (sheet_var g) = true.
Hypothesis Houtput : truthy (output_path_var g) = true.
Hypothesis Hload : load_workbook fs (input_path_var g) = Ret wb.
Hypothesis Hsheet : lookup_sheet (sheets wb) (sheet_var g) = Some ws.
Hypothesis Hcolumns : missing_columns (first_row ws) = [].
Hypothesis Hrect : rectangular ws.
Hypothesis Hsave : save_error fs (output_path_var g) = None.

(** X14: on a valid sheet and a save that succeeds, the generate action
    writes the deck of the sheet and reports by the number of data rows:
    the success box with the count when there is at least one, but the
    warning "PPT生成失败" when there is none, although the empty deck was
    written all the same. *)
Theorem generate_reports_by_count :
  exists g' tr',
    generate fs g [] = (Ret tt, g', tr') /\
    saves tr' = [(output_path_var g, built ws, true)] /\
    dialogs g'
    = dialogs g
      ++ [if 0 <? len (rows_from_2 ws)
          then showinfo (py "成功")
                 (py "PPT生成成功！" ++ [10%N] ++ py "共处理 "
                  ++ str_int (len (rows_from_2 ws)) ++ py " 个单词" ++ [10%N]
                  ++ py "输出文件: " ++ output_path_var g)
          else showwarning (py "警告")
                 (py "PPT生成失败，可能是因为表格中没有数据")] /\
    status_var g'
    = (if 0 <? len (rows_from_2 ws)
       then py "PPT生成成功，共处理 " ++ str_int (len (rows_from_2 ws))
            ++ py " 个单词"
       else py "PPT生成失败").
Proof.
  destruct (generate_ppt_from_sheet_run fs wb ws Hcolumns Hrect
              (input_path_var g) (output_path_var g) (sheet_var g)
              Hload Hsheet) as (tr0 & Hs0 & _ & Hrun).
  unfold sheet_end in Hrun. rewrite Hsave in Hrun. cbn [fst snd] in Hrun.
  unfold run in Hrun.
  unfold generate. rewrite Hinput, Hname, Houtput. cbn [negb].
  rewrite Hrun.
  destruct (0 <? len (rows_from_2 ws)); eexists _, _;
    (split; [reflexivity|]); rewrite saves_app, Hs0; repeat split.
Qed.

End ShellReports.

Lemma generate_reports_by_count_witness :
  exists g' tr',
    generate Template.fs_empty
      (set_input_path (take_sheets init_gui Template.wb_empty)
         (py "words.xlsx")) []
    = (Ret tt, g', tr') /\
    saves tr' = [(py "words.pptx", deck [], true)] /\
    status_var g' = py "PPT生成失败".
Proof.
  destruct (generate_reports_by_count Template.fs_empty
              (set_input_path (take_sheets init_gui Template.wb_empty)
                 (py "words.xlsx"))
              Template.wb_empty Template.ws_empty
              eq_refl eq_refl eq_refl eq_refl eq_refl eq_refl
              ltac:(constructor) eq_refl)
    as (g' & tr' & Hrun & Hsaves & _ & Hstatus).
  exists g', tr'. split; [exact Hrun|]. split; [exact Hsaves | exact Hstatus].
Defined.

(** X15: when the file system raises nothing but exceptions, the generate
    action never lets one escape: whatever the form holds, it ends normally
    having shown exactly one message box, and the three paths of the form
    are as they were. *)
Theorem generate_never_raises (fs : Files) (g : Gui) (tr : list event) :
  raises_exceptions_only fs ->
  exists g' tr',
    generate fs g tr = (Ret tt, g', tr') /\
    length (dialogs g') = S (length (dialogs g)) /\
    input_path_var g' = input_path_var g /\
    sheet_var g' = sheet_var g /\
    output_path_var g' = output_path_var g.
Proof.
  intros Hfs.
  destruct (truthy (input_path_var g) && truthy (sheet_var g)
            && truthy (output_path_var g)) eqn:Hfilled.
  - apply andb_true_iff in Hfilled as [Hfilled Houtput].
    apply andb_true_iff in Hfilled as [Hinput Hname].
    unfold generate. rewrite Hinput, Hname, Houtput. cbn [negb].
    destruct (generate_ppt_from_sheet_exception fs Hfs (input_path_var g)
                (output_path_var g) (sheet_var g) tr)
      as (o & tr' & Hrun & Hexc).
    rewrite Hrun. destruct o as [word_count|e].
    + destruct (0 <? word_count); eexists _, _;
        (split; [reflexivity|]); cbn [dialogs show set_status];
        rewrite length_app; repeat split; simpl; lia.
    + rewrite (Hexc e eq_refl). eexists _, _.
      split; [reflexivity|]. cbn [dialogs show set_status].
      rewrite length_app. repeat split; simpl; lia.
  - rewrite (generate_unfilled fs g tr Hfilled). eexists _, _.
    split; [reflexivity|]. cbn [dialogs show].
    rewrite length_app. repeat split; simpl; lia.
Qed.

Lemma generate_never_raises_witness :
  exists g' tr',
    generate fs_unreadable
      (set_input_path (take_sheets init_gui Template.wb) (py "gone.xlsx")) []
    = (Ret tt, g', tr') /\
    length (dialogs g') = 1%nat.
Proof.
  assert (Hfs : raises_exceptions_only fs_unreadable).
  { split; intros path e He; [injection He as <-; reflexivity | discriminate]. }
  destruct (generate_never_raises fs_unreadable
              (set_input_path (take_sheets init_gui Template.wb)
                 (py "gone.xlsx")) [] Hfs)
    as (g' & tr' & Hrun & Hlen & _).
  exists g', tr'. split; [exact Hrun | exact Hlen].
Defined.

Example template_cells_sheet : sheet_of_cells template_cells = Template.ws.
Proof. vm_compute. reflexivity. Qed.

Section ShellBrowse.

Variable basename : pystr -> pystr.
Variable fs : Files.

Lemma lookup_first_sheet name (ws : Worksheet) rest :
  lookup_sheet ((name, ws) :: rest) name = Some ws.
Proof. simpl. rewrite bool_decide_eq_true_2 by reflexivity. reflexivity. Qed.

(** X16: choosing a workbook that opens fills the sheet selector with the
    workbook's sheet names, enables it and the refresh button, and selects
    the first sheet, a sheet the workbook has; the output path and the
    message boxes are untouched. *)
Theorem browse_input_file_selects (file_path : pystr) (g : Gui)
    (tr : list event) (wb : Workbook) :
  truthy file_path = true ->
  load_workbook fs file_path = Ret wb ->
  exists g',
    browse_input_file basename fs file_path g tr
    = (Ret tt, g', tr ++ [EvLoadWorkbook file_path]) /\
    input_path_var g' = file_path /\
    sheet_combo_values g' = sheetnames wb /\
    sheet_combo_state g' = normal /\
    refresh_sheets_button_state g' = normal /\
    output_path_var g' = output_path_var g /\
    dialogs g' = dialogs g /\
    (forall name ws rest,
       sheets wb = (name, ws) :: rest ->
       sheet_var g' = name /\
       lookup_sheet (sheets wb) (sheet_var g') = Some ws) /\
    (sheets wb = [] -> sheet_var g' = sheet_var g).
Proof.
  intros Hpath Hload. eexists. split.
  { unfold browse_input_file, open_workbook. rewrite Hpath. run_monad.
    rewrite Hload. reflexivity. }
  cbn [input_path_var sheet_combo_values sheet_combo_state
       refresh_sheets_button_state output_path_var dialogs sheet_var
       set_status set_sheet_widgets take_sheets set_input_path].
  repeat (split; [reflexivity|]). split.
  - intros name ws rest Hsheets. unfold sheetnames. rewrite Hsheets.
    cbn [map fst]. split; [reflexivity | apply lookup_first_sheet].
  - intros Hnone. unfold sheetnames. rewrite Hnone. reflexivity.
Qed.

(** X17: a cancelled file dialog changes nothing; a workbook that does not
    open leaves the form pointing at the new path with the sheet list and
    the selection of the workbook before, the selector and the refresh
    button disabled, and one error box shown. *)
Theorem browse_input_file_failure (file_path : pystr) (g : Gui)
    (tr : list event) :
  browse_input_file basename fs [] g tr = (Ret tt, g, tr) /\
  (forall e,
     truthy file_path = true ->
     load_workbook fs file_path = Exc e -> is_Exception e = true ->
     exists g',
       browse_input_file basename fs file_path g tr
       = (Ret tt, g', tr ++ [EvLoadWorkbook file_path]) /\
       input_path_var g' = file_path /\
       sheet_var g' = sheet_var g /\
       sheet_combo_values g' = sheet_combo_values g /\
       current_workbook g' = current_workbook g /\
       sheet_combo_state g' = disabled /\
       refresh_sheets_button_state g' = disabled /\
       status_var g' = py "加载文件失败" /\
       dialogs g'
       = dialogs g
         ++ [showerror (py "错误") (py "加载文件失败: " ++ exn_str e)]).
Proof.
  split; [reflexivity|].
  intros e Hpath Hload Hexc. eexists. split.
  { unfold browse_input_file, open_workbook. rewrite Hpath. run_monad.
    rewrite Hload. run_monad.
    destruct e; [discriminate Hexc | reflexivity ..]. }
  repeat split.
Qed.

End ShellBrowse.

Lemma browse_input_file_selects_witness :
  exists g',
    browse_input_file id Template.fs (py "words.xlsx") init_gui []
    = (Ret tt, g', [EvLoadWorkbook (py "words.xlsx")]) /\
    sheet_var g' = py "单词表".
Proof.
  destruct (browse_input_file_selects id Template.fs (py "words.xlsx")
              init_gui [] Template.wb eq_refl eq_refl)
    as (g' & Hrun & _ & _ & _ & _ & _ & _ & Hfirst & _).
  exists g'. split; [exact Hrun|].
  exact (proj1 (Hfirst _ _ _ eq_refl)).
Defined.

Lemma browse_input_file_failure_witness :
  exists g',
    browse_input_file id fs_unreadable (py "gone.xlsx")
      (take_sheets init_gui Template.wb) []
    = (Ret tt, g', [EvLoadWorkbook (py "gone.xlsx")]) /\
    input_path_var g' = py "gone.xlsx" /\
    sheet_var g' = py "单词表".
Proof.
  destruct (proj2 (browse_input_file_failure id fs_unreadable (py "gone.xlsx")
                     (take_sheets init_gui Template.wb) [])
              (Exception (py "No such file or directory"))
              eq_refl eq_refl eq_refl)
    as (g' & Hrun & Hpath & Hsheet & _).
  exists g'. split; [exact Hrun|]. split; [exact Hpath | exact Hsheet].
Defined.

Section ShellFlow.

Variable basename : pystr -> pystr.
Variable fs : Files.
Variables (file_path : pystr) (g : Gui) (wb : Workbook).
Variables (name : pystr) (ws : Worksheet) (rest : list (pystr * Worksheet)).
Hypothesis Hpath : truthy file_path = true.
Hypothesis Hload : load_workbook fs file_path = Ret wb.
Hypothesis Hsheets : sheets wb = (name, ws) :: rest.

Lemma browse_input_file_form :
  browse_input_file basename fs file_path g []
  = (Ret tt,
     set_status
       (set_sheet_widgets
          (take_sheets
             (set_status (set_input_path g file_path)
                (py "已选择文件: " ++ basename file_path)) wb) normal)
       (py "已加载文件: " ++ basename file_path ++ py "，包含 "
        ++ str_int (len (sheetnames wb)) ++ py " 个表格"),
     [EvLoadWorkbook file_path]).
Proof.
  unfold browse_input_file, open_workbook. rewrite Hpath. run_monad.
  rewrite Hload. reflexivity.
Qed.

(** X18: choosing a workbook and pressing generate, with nothing else
    touched, converts the workbook's first sheet: when that sheet is valid
    and the save succeeds, the deck of the first sheet is written to the
    output path the form already held. *)
Theorem browse_then_generate :
  truthy name = true ->
  truthy (output_path_var g) = true ->
  missing_columns (first_row ws) = [] -> rectangular ws ->
  save_error fs (output_path_var g) = None ->
  exists g1 g2 tr,
    browse_input_file basename fs file_path g []
    = (Ret tt, g1, [EvLoadWorkbook file_path]) /\
    generate fs g1 [] = (Ret tt, g2, tr) /\
    saves tr = [(output_path_var g, built ws, true)] /\
    slides_added tr = length (rows_from_2 ws).
Proof.
  intros Hname Houtput Hcolumns Hrect Hsave.
  assert (Hlookup : lookup_sheet (sheets wb) name = Some ws)
    by (rewrite Hsheets; apply lookup_first_sheet).
  destruct (generate_ppt_from_sheet_run fs wb ws Hcolumns Hrect
              file_path (output_path_var g) name Hload Hlookup)
    as (tr0 & Hs0 & Ha0 & Hrun).
  unfold sheet_end in Hrun. rewrite Hsave in Hrun. cbn [fst snd] in Hrun.
  unfold run in Hrun.
  destruct (0 <? len (rows_from_2 ws)) eqn:Hcount;
  eexists _, _, _; (split; [apply browse_input_file_form|]);
  match goal with |- generate fs ?form [] = _ /\ _ => set (g1 := form) end.
  all: assert (Hin : input_path_var g1 = file_path) by reflexivity.
  all: assert (Hout : output_path_var g1 = output_path_var g) by reflexivity.
  all: assert (Hsel : sheet_var g1 = name)
    by (unfold g1; cbn [sheet_var set_status set_sheet_widgets take_sheets];
        unfold sheetnames; rewrite Hsheets; reflexivity).
  all: unfold generate; rewrite Hin, Hout, Hsel, Hpath, Hname, Houtput;
    cbn [negb]; rewrite Hrun, Hcount; (split; [reflexivity|]);
    rewrite saves_app, slides_added_app, Hs0, Ha0; simpl;
    (split; [reflexivity | lia]).
Qed.

(** X19: refreshing the sheet list right after the workbook was chosen, the
    file unchanged, alters nothing on the form but the status line. *)
Theorem refresh_after_browse :
  exists g1,
    browse_input_file basename fs file_path g []
    = (Ret tt, g1, [EvLoadWorkbook file_path]) /\
    refresh_sheets fs g1 []
    = (Ret tt,
       set_status g1 (py "已刷新表格列表，包含 "
                      ++ str_int (len (sheetnames wb)) ++ py " 个表格"),
       [EvLoadWorkbook file_path]).
Proof.
  eexists. split; [apply browse_input_file_form|].
  unfold refresh_sheets, open_workbook.
  cbn [input_path_var set_status set_sheet_widgets take_sheets set_input_path].
  rewrite Hpath. run_monad. rewrite Hload.
  unfold take_sheets, set_status, set_sheet_widgets, set_input_path, sheetnames.
  rewrite Hsheets. reflexivity.
Qed.

End ShellFlow.

Lemma browse_then_generate_witness :
  exists g1 g2 tr,
    browse_input_file id Template.fs (py "words.xlsx") init_gui []
    = (Ret tt, g1, [EvLoadWorkbook (py "words.xlsx")]) /\
    generate Template.fs g1 [] = (Ret tt, g2, tr) /\
    saves tr = [(py "words.pptx", built Template.ws, true)].
Proof.
  destruct (browse_then_generate id Template.fs (py "words.xlsx") init_gui
              Template.wb (py "单词表") Template.ws [] eq_refl eq_refl eq_refl
              eq_refl eq_refl eq_refl template_rectangular eq_refl)
    as (g1 & g2 & tr & Hbrowse & Hgen & Hsaves & _).
  exists g1, g2, tr. split; [exact Hbrowse|]. split; [exact Hgen | exact Hsaves].
Defined.

Lemma refresh_after_browse_witness :
  exists g1,
    browse_input_file id Template.fs (py "words.xlsx") init_gui []
    = (Ret tt, g1, [EvLoadWorkbook (py "words.xlsx")]) /\
    refresh_sheets Template.fs g1 []
    = (Ret tt, set_status g1 (py "已刷新表格列表，包含 1 个表格"),
       [EvLoadWorkbook (py "words.xlsx")]).
Proof.
  exact (refresh_after_browse id Template.fs (py "words.xlsx") init_gui
           Template.wb (py "单词表") Template.ws [] eq_refl eq_refl eq_refl).
Defined.

(** ** main in batch mode, and the template *)

Section MainExit.

Variable fs : Files.
Variables (HAS_GUI : bool) (args : Namespace) (mainloop : M unit).
Hypothesis Hbatch :
  given (args_input args) || given (args_output args) = true \/ HAS_GUI = false.

Let input := default (py "words.xlsx") (args_input args).
Let output := default (py "words.pptx") (args_output args).

Lemma main_batch :
  main fs HAS_GUI args mainloop
  = (generate_ppt fs (args_input args) (args_output args) ;; ret tt).
Proof.
  unfold main. destruct Hbatch as [-> | ->]; [reflexivity|].
  rewrite andb_false_r. reflexivity.
Qed.

(** X20: with a file named on the command line, or without tkinter, [main]
    runs the batch builder and never the form; on a valid worksheet it ends
    normally, also when the save fails with an exception and nothing was
    written, and it ends with [sys.exit(1)], before any save, when a
    required column is missing or the workbook cannot be opened. *)
Theorem main_batch_exit :
  (forall wb,
     load_workbook fs input = Ret wb ->
     missing_columns (first_row (active wb)) = [] ->
     rectangular (active wb) ->
     (forall e, save_error fs output = Some e -> is_Exception e = true) ->
     fst (run (main fs HAS_GUI args mainloop)) = Ret tt /\
     saves (snd (run (main fs HAS_GUI args mainloop)))
     = [(output, built (active wb), writable fs output)]) /\
  (forall wb,
     load_workbook fs input = Ret wb ->
     missing_columns (first_row (active wb)) <> [] ->
     fst (run (main fs HAS_GUI args mainloop)) = Exc (SystemExit 1) /\
     saves (snd (run (main fs HAS_GUI args mainloop))) = []) /\
  (forall e,
     load_workbook fs input = Exc e -> is_Exception e = true ->
     fst (run (main fs HAS_GUI args mainloop)) = Exc (SystemExit 1) /\
     saves (snd (run (main fs HAS_GUI args mainloop))) = []).
Proof.
  rewrite main_batch. unfold run. split; [|split].
  - intros wb Hload Hcolumns Hrect Hsave.
    destruct (generate_ppt_run fs wb (active wb) Hcolumns Hrect
                (args_input args) (args_output args) Hload eq_refl)
      as (tr0 & Hs0 & _ & Hrun).
    unfold run in Hrun. fold output in Hrun.
    unfold batch_end in Hrun. unfold writable.
    destruct (save_error fs output) as [e|] eqn:Herr.
    + rewrite (Hsave e eq_refl) in Hrun. cbn [fst snd] in Hrun.
      rewrite (bind_Ret _ _ _ _ _ Hrun). cbn [fst snd ret].
      rewrite saves_app, Hs0. split; reflexivity.
    + cbn [fst snd] in Hrun. rewrite (bind_Ret _ _ _ _ _ Hrun).
      cbn [fst snd ret]. rewrite saves_app, Hs0. split; reflexivity.
  - intros wb Hload Hmissing.
    assert (Hrun : generate_ppt fs (args_input args) (args_output args) []
                   = (Exc (SystemExit 1),
                      [] ++ [EvLoadWorkbook input;
                             EvPrint (py "Excel文件缺少必要的列："
                                      ++ join (py ", ")
                                           (missing_columns
                                              (first_row (active wb))))]))
      by (unfold generate_ppt; apply bind_Exc;
          apply (load_data_missing fs _ wb Hload [] Hmissing)).
    rewrite (bind_Exc _ _ _ _ _ Hrun). split; reflexivity.
  - intros e Hload Hexc.
    assert (Hrun : generate_ppt fs (args_input args) (args_output args) []
                   = (Exc (SystemExit 1),
                      [EvLoadWorkbook input;
                       EvPrint (py "读取Excel文件时发生错误：" ++ exn_str e)])).
    { unfold generate_ppt. apply bind_Exc.
      unfold load_data, open_workbook. run_monad. fold input.
      rewrite Hload. run_monad.
      destruct e; [discriminate Hexc | reflexivity ..]. }
    rewrite (bind_Exc _ _ _ _ _ Hrun). split; reflexivity.
Qed.

End MainExit.

Lemma main_batch_exit_witness :
  fst (run (main Template.fs_read_only true
              {| args_input := Some (py "words.xlsx"); args_output := None |}
              (ret tt)))
  = Ret tt /\
  saves (snd (run (main Template.fs_read_only true
                     {| args_input := Some (py "words.xlsx");
                        args_output := None |} (ret tt))))
  = [(py "words.pptx", built Template.ws, false)].
Proof.
  assert (Hsave : forall e,
            save_error Template.fs_read_only (py "words.pptx") = Some e ->
            is_Exception e = true)
    by (intros e He; injection He as <-; reflexivity).
  exact (proj1 (main_batch_exit Template.fs_read_only true
                  {| args_input := Some (py "words.xlsx");
                     args_output := None |} (ret tt) (or_introl eq_refl))
           Template.wb eq_refl eq_refl template_rectangular Hsave).
Defined.

(** X21: the sheet that 创建模板.py writes has the six required names, in
    order, as its header row; opened by the batch builder it passes the
    validation and gives a deck of five slides, each with its definition
    region, whose words are apple, banana, cat, dog and elephant. *)
Theorem template_is_accepted (fs : Files)
    (input_file output_file : option pystr) (wb : Workbook) :
  load_workbook fs (default (py "words.xlsx") input_file) = Ret wb ->
  active wb = sheet_of_cells template_cells ->
  first_row (active wb) = map CStr REQUIRED_COLUMNS /\
  exists ppt,
    saves (snd (run (generate_ppt fs input_file output_file)))
    = [(default (py "words.pptx") output_file, ppt,
        writable fs (default (py "words.pptx") output_file))] /\
    map (fun slide => region_text <$> head slide) (slides ppt)
    = map Some [py "apple"; py "banana"; py "cat"; py "dog"; py "elephant"] /\
    Forall (fun slide => length slide = 5%nat) (slides ppt).
Proof.
  intros Hload Hactive. rewrite template_cells_sheet in Hactive.
  split; [rewrite Hactive; reflexivity|].
  destruct (generate_ppt_run fs wb Template.ws eq_refl template_rectangular
              input_file output_file Hload Hactive)
    as (tr0 & Hs0 & _ & Hrun).
  exists (built Template.ws). rewrite Hrun. cbn [snd].
  rewrite saves_app, Hs0.
  rewrite (proj1 (batch_end_trace fs Template.ws _)).
  split; [reflexivity|]. split; [reflexivity|].
  unfold built, deck. cbn [slides]. repeat constructor.
Qed.

Lemma template_is_accepted_witness :
  exists ppt,
    saves (snd (run (generate_ppt Template.fs None None)))
    = [(py "words.pptx", ppt, true)] /\
    length (slides ppt) = 5%nat.
Proof.
  destruct (template_is_accepted Template.fs None None Template.wb
              eq_refl (eq_sym template_cells_sheet))
    as (_ & ppt & Hsaves & Hwords & _).
  exists ppt. split; [exact Hsaves|].
  rewrite <- (length_map (fun slide => region_text <$> head slide)), Hwords.
  reflexivity.
Defined.
